(** * robowflex: request builder, planners, linear task-plan execution, HDF5 loader

    A shallow embedding of
      - [MotionRequestBuilder], [PipelinePlanner::plan],
        [OMPL::OMPLInterfacePlanner::plan], [OMPL::Settings::setParam] and
        the planners' [initialize] (robowflex_library),
      - [TMPackInterface::plan_linearly] and [plan] (tmpack),
      - [IO::HDF5Data] and [IO::HDF5File] (robowflex_library/io/hdf5.cpp),
    with the properties of these functions stated and proved below.

    Conventions.  A C++ [double] is a binary64 float.  Objects that the code
    mutates through references are fields of a [World] record that every
    operation takes and returns; calls that leave the modelled code (helper
    callbacks, MoveIt, OMPL) are recorded, in program order, in a list of
    [Event]s.  MoveIt, OMPL and ROS are outside the repository: their types
    and functions are section variables. *)

From Stdlib Require Import ZArith NArith List String Lia.
From Stdlib Require Import Floats.PrimFloat.
From stdpp Require Import base option list gmap strings pretty.
Import ListNotations.

Set Warnings "-inexact-float,-register-all".

Definition double := float.

(** ** C++ container operations used by the code *)

Definition clear {A} (v : list A) : list A := [].
Definition push_back {A} (v : list A) (x : A) : list A := v ++ [x].

(** ** ROS / MoveIt messages (the fields the code reads or writes) *)

Record Vector3 := { x : double; y : double; z : double }.

Record WorkspaceParameters := {
  min_corner : Vector3;
  max_corner : Vector3
}.

Record JointState := {
  name : list string;
  position : list double
}.

(** moveit_msgs::RobotState *)
Record RobotStateMsg := { joint_state : JointState }.

(** moveit_msgs::MoveItErrorCodes *)
Record MoveItErrorCodes := { val : Z }.

Definition SUCCESS : Z := 1.
Definition FAILURE : Z := 99999.

(** ** The state monad of the planning stack

    [M W E A] is a computation over a world [W] that returns an [A] and the
    calls ([E]) it made, oldest first. *)

Definition M (W E A : Type) : Type := W -> A * W * list E.

Definition ret {W E A} (a : A) : M W E A := fun w => (a, w, []).

Definition bind {W E A B} (m : M W E A) (f : A -> M W E B) : M W E B :=
  fun w =>
    let '(a, w1, t1) := m w in
    let '(b, w2, t2) := f a w1 in
    (b, w2, t1 ++ t2).

Definition call {W E} (e : E) : M W E unit := fun w => (tt, w, [e]).
Definition get {W E A} (f : W -> A) : M W E A := fun w => (f w, w, []).
Definition modify {W E} (f : W -> W) : M W E unit := fun w => (tt, f w, []).

Definition result {W E A} (r : A * W * list E) : A := fst (fst r).
Definition world {W E A} (r : A * W * list E) : W := snd (fst r).
Definition trace {W E A} (r : A * W * list E) : list E := snd r.

Declare Scope robowflex_scope.
Delimit Scope robowflex_scope with rwf.
Notation "'let*' x := m 'in' k" := (bind m (fun x => k))
  (at level 10, x pattern, m at level 100, k at level 200) : robowflex_scope.
Notation "'do' m 'in' k" := (bind m (fun _ => k))
  (at level 10, m at level 100, k at level 200) : robowflex_scope.

(** ** Robot

    [Robot] (robowflex.h) is used by [plan_linearly] through three methods
    only; the class is an interface here.  [setStateNamed] is the overload
    [setState(const std::map<std::string, double> &)]. *)

Class RobotInterface (Robot : Type) := {
  getState : Robot -> list double;
  setState : list double -> Robot -> Robot;
  setStateNamed : gmap string double -> Robot -> Robot
}.

(** The contract of the three methods: the vector overload changes the joint
    vector and nothing else, so that writing back the vector read before it
    undoes it; the map overload is such an overwrite. *)
Class RobotLaws (Robot : Type) `{RobotInterface Robot} : Prop := {
  setState_restores : forall v r, setState (getState r) (setState v r) = r;
  setStateNamed_setState : forall m r, exists v, setStateNamed m r = setState v r
}.

Section Robowflex.

(** *** External types and functions *)

(** moveit_msgs constraint messages *)
Context {JointConstraint PositionConstraint OrientationConstraint : Type}.
(** robot_trajectory::RobotTrajectoryPtr *)
Context {Trajectory : Type}.
(** robot_state::RobotState; Eigen and robowflex geometry *)
Context {RobotState Affine3d Geometry Quaterniond Vector3d : Type}.
(** robowflex Robot and Scene; planning_pipeline::PlanningPipeline;
    ompl_interface::ModelBasedPlanningContext; everything else that the
    helpers, the pipeline and OMPL keep between calls *)
Context {Robot Scene Pipeline PlanningContext Env : Type}.
Context `{RobotInterface Robot}.

(** moveit_msgs::Constraints *)
Record Constraints := {
  joint_constraints : list JointConstraint;
  position_constraints : list PositionConstraint;
  orientation_constraints : list OrientationConstraint
}.

(** planning_interface::MotionPlanRequest *)
Record MotionPlanRequest := {
  group_name : string;
  workspace_parameters : WorkspaceParameters;
  allowed_planning_time : double;
  planner_id : string;
  start_state : RobotStateMsg;
  goal_constraints : list Constraints
}.

(** planning_interface::MotionPlanResponse *)
Record MotionPlanResponse := {
  trajectory_ : option Trajectory;
  planning_time_ : double;
  error_code_ : MoveItErrorCodes
}.

(** [planning_interface::MotionPlanResponse response;] *)
Definition default_response : MotionPlanResponse :=
  {| trajectory_ := None; planning_time_ := 0%float; error_code_ := {| val := 0 |} |}.

Definition with_error_code (v : Z) (r : MotionPlanResponse) : MotionPlanResponse :=
  {| trajectory_ := trajectory_ r; planning_time_ := planning_time_ r;
     error_code_ := {| val := v |} |}.

Definition with_workspace_parameters (wp : WorkspaceParameters) (r : MotionPlanRequest) :=
  {| group_name := group_name r; workspace_parameters := wp;
     allowed_planning_time := allowed_planning_time r; planner_id := planner_id r;
     start_state := start_state r; goal_constraints := goal_constraints r |}.

Definition with_start_state (s : RobotStateMsg) (r : MotionPlanRequest) :=
  {| group_name := group_name r; workspace_parameters := workspace_parameters r;
     allowed_planning_time := allowed_planning_time r; planner_id := planner_id r;
     start_state := s; goal_constraints := goal_constraints r |}.

Definition with_goal_constraints (g : list Constraints) (r : MotionPlanRequest) :=
  {| group_name := group_name r; workspace_parameters := workspace_parameters r;
     allowed_planning_time := allowed_planning_time r; planner_id := planner_id r;
     start_state := start_state r; goal_constraints := g |}.

(** MoveIt: [RobotState(robot_.getModel())], [setToDefaultValues],
    [setJointGroupPositions(jmg_, _)], [robotStateToRobotStateMsg],
    [kinematic_constraints::constructGoalConstraints(_, jmg_)] *)
Variable newRobotState : RobotState.
Variable setToDefaultValues : RobotState -> RobotState.
Variable setJointGroupPositions : list double -> RobotState -> RobotState.
Variable robotStateToRobotStateMsg : RobotState -> RobotStateMsg.
Variable constructGoalConstraints : RobotState -> Constraints.

(** robowflex TF helpers (tf.cpp) *)
Variable getPositionConstraint : string -> string -> Affine3d -> Geometry -> PositionConstraint.
Variable getOrientationConstraint : string -> string -> Quaterniond -> Vector3d -> OrientationConstraint.

(** *** MotionRequestBuilder

    The builder's only mutable member is [request_]; each method is a
    function on it. *)

Definition setWorkspaceBounds (wp : WorkspaceParameters) (request_ : MotionPlanRequest) :=
  with_workspace_parameters wp request_.

Definition setStartConfiguration (joints : list double) (request_ : MotionPlanRequest) :=
  let start_state := newRobotState in
  let start_state := setToDefaultValues start_state in
  let start_state := setJointGroupPositions joints start_state in
  with_start_state (robotStateToRobotStateMsg start_state) request_.

Definition setGoalConfiguration (joints : list double) (request_ : MotionPlanRequest) :=
  let goal_state := newRobotState in
  let goal_state := setJointGroupPositions joints goal_state in
  let request_ := with_goal_constraints (clear (goal_constraints request_)) request_ in
  with_goal_constraints
    (push_back (goal_constraints request_) (constructGoalConstraints goal_state)) request_.

Definition setGoalRegion (ee_name base_name : string) (pose : Affine3d) (geometry : Geometry)
    (orientation : Quaterniond) (tolerances : Vector3d) (request_ : MotionPlanRequest) :=
  let constraints :=
    {| joint_constraints := []; position_constraints := []; orientation_constraints := [] |} in
  let constraints :=
    {| joint_constraints := joint_constraints constraints;
       position_constraints :=
         push_back (position_constraints constraints)
                   (getPositionConstraint ee_name base_name pose geometry);
       orientation_constraints := orientation_constraints constraints |} in
  let constraints :=
    {| joint_constraints := joint_constraints constraints;
       position_constraints := position_constraints constraints;
       orientation_constraints :=
         push_back (orientation_constraints constraints)
                   (getOrientationConstraint ee_name base_name orientation tolerances) |} in
  let request_ := with_goal_constraints (clear (goal_constraints request_)) request_ in
  with_goal_constraints (push_back (goal_constraints request_) constraints) request_.

Definition getRequest (request_ : MotionPlanRequest) : MotionPlanRequest := request_.

(** A call of one of the builder's mutating methods. *)
Inductive BuilderCall :=
| SetWorkspaceBounds (wp : WorkspaceParameters)
| SetStartConfiguration (joints : list double)
| SetGoalConfiguration (joints : list double)
| SetGoalRegion (ee_name base_name : string) (pose : Affine3d) (geometry : Geometry)
    (orientation : Quaterniond) (tolerances : Vector3d).

Definition is_goal_setter (c : BuilderCall) : bool :=
  match c with
  | SetGoalConfiguration _ | SetGoalRegion _ _ _ _ _ _ => true
  | _ => false
  end.

(** The entry that a goal setter makes from its arguments. *)
Definition pushed_goal (c : BuilderCall) : option Constraints :=
  match c with
  | SetGoalConfiguration joints =>
      Some (constructGoalConstraints (setJointGroupPositions joints newRobotState))
  | SetGoalRegion ee_name base_name pose geometry orientation tolerances =>
      Some {| joint_constraints := [];
              position_constraints := [getPositionConstraint ee_name base_name pose geometry];
              orientation_constraints :=
                [getOrientationConstraint ee_name base_name orientation tolerances] |}
  | _ => None
  end.

Definition builder_call (request_ : MotionPlanRequest) (c : BuilderCall) : MotionPlanRequest :=
  match c with
  | SetWorkspaceBounds wp => setWorkspaceBounds wp request_
  | SetStartConfiguration joints => setStartConfiguration joints request_
  | SetGoalConfiguration joints => setGoalConfiguration joints request_
  | SetGoalRegion e b p g o t => setGoalRegion e b p g o t request_
  end.

Definition builder_calls (cs : list BuilderCall) (request_ : MotionPlanRequest) :=
  fold_left builder_call cs request_.

(** *** The objects the planning code works on *)

Record World := {
  robot : Robot;                    (* Robot &robot *)
  request_ : MotionPlanRequest;     (* MotionRequestBuilder &request, member request_ *)
  scene : Scene;                    (* Scene &scene *)
  pipeline_ : option Pipeline;      (* planner.pipeline_; None when unset *)
  env : Env                         (* state private to helpers, pipeline, OMPL *)
}.

Definition with_robot (f : Robot -> Robot) (w : World) : World :=
  {| robot := f (robot w); request_ := request_ w; scene := scene w;
     pipeline_ := pipeline_ w; env := env w |}.

Definition with_request (f : MotionPlanRequest -> MotionPlanRequest) (w : World) : World :=
  {| robot := robot w; request_ := f (request_ w); scene := scene w;
     pipeline_ := pipeline_ w; env := env w |}.

Definition with_env (e : Env) (w : World) : World :=
  {| robot := robot w; request_ := request_ w; scene := scene w;
     pipeline_ := pipeline_ w; env := e |}.

(** The calls that leave the modelled code. *)
Inductive Event :=
| constraint_helper_planLinearly_Callback (task_op joint_positions : list double)
| scene_graph_helper_planLinearly_Callback (task_op : list double)
| planner_plan (request : MotionPlanRequest)
| planner_returned (response : MotionPlanResponse)
| pipeline_generatePlan (request : MotionPlanRequest)
| interface_getPlanningContext (request : MotionPlanRequest)
| context_clear
| context_solve.

(** A call into an external library, which may change [env] only. *)
Definition extern {A} (f : Env -> A * Env) : M World Event A :=
  fun w => let '(a, e) := f (env w) in (a, with_env e w, []).

(** [PlanningPipeline::generatePlan(scene, request, response)] fills the
    response it is given; [PlanningInterface::getPlanningContext] returns a
    null pointer ([None]) or a context; [context->clear()];
    [context->solve(response)]. *)
Variable generatePlan :
  Pipeline -> Scene -> MotionPlanRequest -> MotionPlanResponse -> Env -> MotionPlanResponse * Env.
Variable getPlanningContext :
  Scene -> MotionPlanRequest -> Env -> option PlanningContext * Env.
Variable Context_clear : PlanningContext -> Env -> unit * Env.
Variable Context_solve :
  PlanningContext -> MotionPlanResponse -> Env -> (bool * MotionPlanResponse) * Env.

(** *** PipelinePlanner::plan *)

Definition PipelinePlanner_plan (scene : Scene) (request : MotionPlanRequest)
  : M World Event MotionPlanResponse :=
  (let response := default_response in
   let* p := get pipeline_ in
   match p with
   | Some pipeline =>
       do call (pipeline_generatePlan request) in
       extern (generatePlan pipeline scene request response)
   | None => ret response
   end)%rwf.

(** *** OMPL::OMPLInterfacePlanner::plan *)

Definition OMPLInterfacePlanner_plan (scene : Scene) (request : MotionPlanRequest)
  : M World Event MotionPlanResponse :=
  (let response := default_response in
   let response := with_error_code FAILURE response in
   do call (interface_getPlanningContext request) in
   let* context := extern (getPlanningContext scene request) in
   match context with
   | None => ret response
   | Some context =>
       do call context_clear in
       do extern (Context_clear context) in
       do call context_solve in
       let* (result, response) := extern (Context_solve context response) in
       ret response
   end)%rwf.

(** *** TMPackInterface::plan_linearly *)

(** The two injected helpers are pure virtual: any function on the objects
    they can reach.  [getFinalJointPositions] (robowflex_library) returns
    the named joint values of the last waypoint of a response. *)
Variable constraint_helper : list double -> list double -> World -> World.
Variable scene_graph_helper : list double -> World -> World.
Variable getFinalJointPositions : MotionPlanResponse -> gmap string double.

(** r2_start.yml *)
Definition tmp : list double :=
  [1.98552; 0.0242871; 9.14127e-05; 4.8366e-06; -2.4964e-06; 1; -6.53607e-07]%float.

(** Lines 78-83: the helpers, then the planner; the response is appended. *)
Definition plan_goal (goal_conf : list double)
    (responses : list MotionPlanResponse) (next_start_joint_positions : list double)
  : M World Event (list MotionPlanResponse * MotionPlanResponse) :=
  (do call (constraint_helper_planLinearly_Callback goal_conf next_start_joint_positions) in
   do modify (constraint_helper goal_conf next_start_joint_positions) in
   do call (scene_graph_helper_planLinearly_Callback goal_conf) in
   do modify (scene_graph_helper goal_conf) in
   let* request := get (fun w => getRequest (request_ w)) in
   let* scene := get scene in
   do call (planner_plan request) in
   let* response := PipelinePlanner_plan scene request in
   do call (planner_returned response) in
   let responses := push_back responses response in
   ret (responses, response))%rwf.

(** Lines 85-92: read the next start back through the robot, restore the
    robot, write the start into the request.  (The line written to
    [std::cout] is left out.) *)
Definition reseed (response : MotionPlanResponse) : M World Event (list double) :=
  (let named_joint_positions := getFinalJointPositions response in
   let* temp := get (fun w => getState (robot w)) in
   do modify (with_robot (setStateNamed named_joint_positions)) in
   let* next_start_joint_positions := get (fun w => getState (robot w)) in
   do modify (with_robot (setState temp)) in
   do modify (with_request (setStartConfiguration next_start_joint_positions)) in
   ret next_start_joint_positions)%rwf.

(** The body of [for (std::vector<double> goal_conf : goals)], on the two
    locals that live across iterations. *)
Definition plan_linearly_body (goal_conf : list double)
    (locals : list MotionPlanResponse * list double)
  : M World Event (list MotionPlanResponse * list double) :=
  (let '(responses, next_start_joint_positions) := locals in
   let* (responses, response) := plan_goal goal_conf responses next_start_joint_positions in
   let* next_start_joint_positions := reseed response in
   ret (responses, next_start_joint_positions))%rwf.

Fixpoint plan_linearly_loop (goals : list (list double))
    (locals : list MotionPlanResponse * list double)
  : M World Event (list MotionPlanResponse * list double) :=
  match goals with
  | [] => ret locals
  | goal_conf :: goals =>
      (let* locals := plan_linearly_body goal_conf locals in
       plan_linearly_loop goals locals)%rwf
  end.

(** The locals on entry to the loop (lines 54-68). *)
Definition plan_linearly_init : M World Event (list MotionPlanResponse * list double) :=
  (let responses := [] in
   let* next_start_joint_positions :=
     get (fun w => position (joint_state (start_state (getRequest (request_ w))))) in
   let tmp := tmp ++ next_start_joint_positions in
   let next_start_joint_positions := tmp in
   ret (responses, next_start_joint_positions))%rwf.

(** The locals when the loop has consumed [goals]. *)
Definition plan_linearly_locals (goals : list (list double))
  : M World Event (list MotionPlanResponse * list double) :=
  (let* locals := plan_linearly_init in
   plan_linearly_loop goals locals)%rwf.

Definition plan_linearly (goals : list (list double))
  : M World Event (list MotionPlanResponse) :=
  (let* (responses, _) := plan_linearly_locals goals in
   ret responses)%rwf.

(** What a trace shows of the loop: which of the three steps, for which goal. *)
Inductive Step :=
| ConstraintStep (goal_conf : list double)
| SceneGraphStep (goal_conf : list double)
| PlannerStep.

Definition step_of (e : Event) : option Step :=
  match e with
  | constraint_helper_planLinearly_Callback g _ => Some (ConstraintStep g)
  | scene_graph_helper_planLinearly_Callback g => Some (SceneGraphStep g)
  | planner_plan _ => Some PlannerStep
  | _ => None
  end.

Definition steps (t : list Event) : list Step := omap step_of t.

(** The responses that the planner returned, as a trace shows them. *)
Definition returned_of (e : Event) : option MotionPlanResponse :=
  match e with
  | planner_returned response => Some response
  | _ => None
  end.

Definition returned (t : list Event) : list MotionPlanResponse := omap returned_of t.

(** The world in which the planner is called for a goal: the one the two
    helpers leave. *)
Definition helped (goal_conf next_start_joint_positions : list double) (w : World) : World :=
  scene_graph_helper goal_conf (constraint_helper goal_conf next_start_joint_positions w).

(** The planner's run for a goal. *)
Definition planned (goal_conf next_start_joint_positions : list double) (w : World) :=
  let w1 := helped goal_conf next_start_joint_positions w in
  PipelinePlanner_plan (scene w1) (getRequest (request_ w1)) w1.

(** ** The HDF5 loader (robowflex_library/src/io/hdf5.cpp) *)

(** H5T_class_t, H5O_type_t and the two memory types the code names *)
Inductive H5T_class_t :=
| H5T_NO_CLASS | H5T_INTEGER | H5T_FLOAT | H5T_TIME | H5T_STRING | H5T_BITFIELD
| H5T_OPAQUE | H5T_COMPOUND | H5T_REFERENCE | H5T_ENUM | H5T_VLEN | H5T_ARRAY.

Inductive H5O_type_t :=
| H5O_TYPE_UNKNOWN | H5O_TYPE_GROUP | H5O_TYPE_DATASET | H5O_TYPE_NAMED_DATATYPE.

Inductive PredType := NATIVE_INT | NATIVE_DOUBLE.

(** How a C++ call ends. *)
Inductive Outcome (A : Type) :=
| Returns (a : A)
| Throws        (* an exception of the HDF5 library leaves the call *)
| Undefined.    (* undefined behaviour: no value is returned, or memory is overrun *)
#[global] Arguments Returns {A} a.
#[global] Arguments Throws {A}.
#[global] Arguments Undefined {A}.

(** Conversions between the integer types of the size computation. *)
Definition to_unsigned (bits z : Z) : Z := (z mod 2 ^ bits)%Z.
Definition to_signed (bits z : Z) : Z :=
  ((z + 2 ^ (bits - 1)) mod 2 ^ bits - 2 ^ (bits - 1))%Z.

(** [std::accumulate(dims_, dims_ + rank_, 1, std::multiplies<hsize_t>())]:
    the accumulator has the type of the initial value, [int]; each step
    multiplies as [hsize_t] (64 bits, unsigned) and stores back into it. *)
Definition accumulate (dims : list N) : Z :=
  fold_left (fun acc d => to_signed 32 (to_unsigned 64 (to_unsigned 64 acc * Z.of_N d)))
    dims 1%Z.

(** [std::get<1>(properties) * accumulate]: [unsigned int] times [int]. *)
Definition buffer_size (size : Z) (dims : list N) : Z :=
  to_unsigned 32 (size * to_unsigned 32 (accumulate dims))%Z.

(** The bytes that [dataset_.read] writes: every element of the dataset. *)
Definition read_size (size : Z) (dims : list N) : Z :=
  (size * fold_left (fun acc d => acc * Z.of_N d) dims 1)%Z.

(** [sizeof(int)], [sizeof(double)]; what the library copies out of a dataset *)
Variables sizeof_int sizeof_double : Z.
Context {Contents : Type}.

(** *** The source container *)

(** An object of an HDF5 file; the links of a group are in index order. *)
Inductive H5Object :=
| H5Group (links : list (string * H5Object))
| H5Dataset (class : H5T_class_t) (dims : list N) (contents : Contents)
| H5NamedDatatype.

(** An open [H5::H5File] or [H5::Group]: its links. *)
Abbreviation Location := (list (string * H5Object)).

Fixpoint find_link (location : Location) (name : string) : option H5Object :=
  match location with
  | [] => None
  | (n, o) :: location => if String.eqb n name then Some o else find_link location name
  end.

Definition childObjType (location : Location) (name : string) : Outcome H5O_type_t :=
  match find_link location name with
  | Some (H5Group _) => Returns H5O_TYPE_GROUP
  | Some (H5Dataset _ _ _) => Returns H5O_TYPE_DATASET
  | Some H5NamedDatatype => Returns H5O_TYPE_NAMED_DATATYPE
  | None => Throws
  end.

Definition openGroup (location : Location) (name : string) : Outcome Location :=
  match find_link location name with
  | Some (H5Group links) => Returns links
  | _ => Throws
  end.

Definition openDataSet (location : Location) (name : string)
  : Outcome (H5T_class_t * list N * Contents) :=
  match find_link location name with
  | Some (H5Dataset class dims contents) => Returns (class, dims, contents)
  | _ => Throws
  end.

(** *** IO::HDF5Data *)

Record HDF5Data := {
  type_ : H5T_class_t;
  rank_ : nat;
  dims_ : list N;
  data_ : PredType * Contents     (* the buffer, as read with this memory type *)
}.

Definition getDataProperties (type_ : H5T_class_t) : Outcome (PredType * Z * string) :=
  match type_ with
  | H5T_INTEGER => Returns (NATIVE_INT, sizeof_int, "integer")
  | H5T_FLOAT => Returns (NATIVE_DOUBLE, sizeof_double, "double")
  | _ => Undefined
  end.

(** The constructor.  The buffer has [buffer_size] bytes; [dataset_.read]
    writes [read_size] bytes into it. *)
Definition HDF5Data_new (location : Location) (name : string) : Outcome HDF5Data :=
  match openDataSet location name with
  | Returns (class, dims, contents) =>
      let type_ := class in
      let rank_ := length dims in
      let dims_ := dims in
      match getDataProperties type_ with
      | Returns (mem_type, size, _) =>
          if (buffer_size size dims_ <? read_size size dims_)%Z then Undefined
          else Returns {| type_ := type_; rank_ := rank_; dims_ := dims_;
                          data_ := (mem_type, contents) |}
      | Throws => Throws
      | Undefined => Undefined
      end
  | Throws => Throws
  | Undefined => Undefined
  end.

Definition getDims (d : HDF5Data) : list N := firstn (rank_ d) (dims_ d).

Definition getData (d : HDF5Data) : PredType * Contents := data_ d.

(** The loop over [dims_] in [getStatus]. *)
Fixpoint dimensions (i : nat) (dims : list N) : string :=
  match dims with
  | [] => ""
  | d :: dims =>
      ((if (0 <? i)%nat then " x " else "") ++ pretty d ++ dimensions (S i) dims)%string
  end.

Definition getStatus (d : HDF5Data) : Outcome string :=
  match getDataProperties (type_ d) with
  | Returns (_, _, type_name) =>
      Returns ("HDF5DataSet " ++ "Rank: " ++ pretty (rank_ d) ++ ", "
               ++ "Type: " ++ type_name ++ ", "
               ++ "Dimensions: " ++ dimensions 0 (firstn (rank_ d) (dims_ d)))%string
  | Throws => Throws
  | Undefined => Undefined
  end.

(** *** IO::HDF5File *)

(** [Node]: a dataset or a map of nodes ([boost::variant]). *)
Inductive Node :=
| Leaf (data : HDF5Data)
| Map (children : gmap string Node).

(** A call of [loadData]: the name it is given and the type it finds. *)
Definition Visit : Type := string * H5O_type_t.

(** The loader's computations: [None] when the fuel of the model ran out,
    else how the call ends, and on return the value and the visits made. *)
Definition L (A : Type) : Type := option (Outcome (A * list Visit)).

Definition Lret {A} (a : A) : L A := Some (Returns (a, [])).

Definition Lbind {A B} (m : L A) (f : A -> L B) : L B :=
  match m with
  | None => None
  | Some Throws => Some Throws
  | Some Undefined => Some Undefined
  | Some (Returns (a, t)) =>
      match f a with
      | None => None
      | Some Throws => Some Throws
      | Some Undefined => Some Undefined
      | Some (Returns (b, t')) => Some (Returns (b, t ++ t'))
      end
  end.

Definition lift {A} (o : Outcome A) : L A :=
  match o with
  | Returns a => Some (Returns (a, []))
  | Throws => Some Throws
  | Undefined => Some Undefined
  end.

Definition visit (v : Visit) : L unit := Some (Returns (tt, [v])).

Declare Scope hdf5_scope.
Delimit Scope hdf5_scope with h5.
Notation "'let*' x := m 'in' k" := (Lbind m (fun x => k))
  (at level 10, x pattern, m at level 100, k at level 200) : hdf5_scope.
Notation "'do' m 'in' k" := (Lbind m (fun _ => k))
  (at level 10, m at level 100, k at level 200) : hdf5_scope.

(** [for (auto obj : names) body], on the state [s] that the body updates. *)
Fixpoint for_each {S : Type} (names : list string) (s : S) (body : string -> S -> L S) : L S :=
  match names with
  | [] => Lret s
  | obj :: names => (let* s := body obj s in for_each names s body)%h5
  end.

Definition listObjects (location : Location) : list string := map fst location.

(** [loadData(node, location, name)] returns the value of [node] when the
    call returns.  In the group case [node[obj]] is first set to an empty
    map, and the recursive call fills that map in place. *)
Fixpoint loadData (fuel : nat) (node : gmap string Node) (location : Location) (name : string)
  : L (gmap string Node) :=
  match fuel with
  | O => None
  | S fuel =>
      (let type := H5O_TYPE_GROUP in
       let* type :=
         if negb (String.eqb name "") then lift (childObjType location name) else Lret type in
       do visit (name, type) in
       match type with
       | H5O_TYPE_GROUP =>
           let* group := lift (openGroup location name) in
           for_each (listObjects group) node (fun obj node =>
             let node := <[obj := Map ∅]> node in
             let* children := loadData fuel ∅ group obj in
             Lret (<[obj := Map children]> node))
       | H5O_TYPE_DATASET =>
           let* data := lift (HDF5Data_new location name) in
           Lret (<[name := Leaf data]> node)
       | _ => Lret node
       end)%h5
  end.

(** The nesting depth of an object: a bound on the depth of [loadData]'s
    recursion into it. *)
Fixpoint depth (o : H5Object) : nat :=
  match o with
  | H5Group links =>
      S ((fix deepest (l : Location) : nat :=
            match l with
            | [] => 0
            | (_, o) :: l => Nat.max (depth o) (deepest l)
            end) links)
  | _ => 1
  end.

(** The constructor, on the opened file: [data_] when it returns. *)
Definition HDF5File (file_ : Location) : L (gmap string Node) :=
  for_each (listObjects file_) ∅ (fun obj data_ =>
    loadData (depth (H5Group file_)) data_ file_ obj).

(** *** The public interface after construction *)

Inductive Method := GetDims | GetData | GetStatus.

Inductive Answer :=
| Dims (dims : list N)
| Data (buffer : PredType * Contents)
| Status (status : Outcome string)
| NoSuchLeaf.

(** The three methods are [const]: the object they are called on is the
    object afterwards. *)
Definition call_method (m : Method) (d : HDF5Data) : Answer * HDF5Data :=
  match m with
  | GetDims => (Dims (getDims d), d)
  | GetData => (Data (getData d), d)
  | GetStatus => (Status (getStatus d), d)
  end.

Fixpoint leaf_at (path : list string) (n : Node) : option HDF5Data :=
  match path, n with
  | [], Leaf d => Some d
  | key :: path, Map children =>
      match children !! key with
      | Some n => leaf_at path n
      | None => None
      end
  | _, _ => None
  end.

Fixpoint put_leaf (path : list string) (d : HDF5Data) (n : Node) : Node :=
  match path, n with
  | [], Leaf _ => Leaf d
  | key :: path, Map children =>
      match children !! key with
      | Some c => Map (<[key := put_leaf path d c]> children)
      | None => n
      end
  | _, _ => n
  end.

(** A method called on the dataset at [path] of the tree [data_]. *)
Definition query (q : list string * Method) (data_ : gmap string Node)
  : Answer * gmap string Node :=
  match leaf_at (fst q) (Map data_) with
  | Some d =>
      let '(a, d) := call_method (snd q) d in
      (a, match put_leaf (fst q) d (Map data_) with Map m => m | Leaf _ => data_ end)
  | None => (NoSuchLeaf, data_)
  end.

Definition queries (qs : list (list string * Method)) (data_ : gmap string Node)
  : gmap string Node :=
  fold_left (fun data_ q => snd (query q data_)) qs data_.

(** *** The container, walked depth first *)

Definition type_of (o : H5Object) : H5O_type_t :=
  match o with
  | H5Group _ => H5O_TYPE_GROUP
  | H5Dataset _ _ _ => H5O_TYPE_DATASET
  | H5NamedDatatype => H5O_TYPE_NAMED_DATATYPE
  end.

(** The objects below [o] in depth-first order, a group before its members,
    members in index order. *)
Fixpoint preorder (o : H5Object) : list Visit :=
  match o with
  | H5Group links =>
      (fix each (l : Location) : list Visit :=
         match l with
         | [] => []
         | (n, c) :: l => ((n, type_of c) :: preorder c) ++ each l
         end) links
  | _ => []
  end.

(** A container as the HDF5 library hands it out and as the loader can read
    it: in every group the link names are distinct and not empty, and every
    dataset has a class that [getDataProperties] knows and a size that the
    buffer computation does not wrap. *)
Fixpoint well_formed (o : H5Object) : bool :=
  match o with
  | H5Group links =>
      bool_decide (NoDup (map fst links))
      && (fix each (l : Location) : bool :=
            match l with
            | [] => true
            | (n, c) :: l => negb (String.eqb n "") && well_formed c && each l
            end) links
  | H5Dataset class dims _ =>
      match getDataProperties class with
      | Returns (_, size, _) => negb (buffer_size size dims <? read_size size dims)%Z
      | _ => false
      end
  | H5NamedDatatype => true
  end.

(** *** The tree that mirrors a container (the specification's reading)

    Every group member that is a group gives a map under its name, every
    member that is a dataset gives a leaf under its name. *)
Fixpoint mirror (o : H5Object) : option Node :=
  match o with
  | H5Group links =>
      Some (Map ((fix each (l : Location) : gmap string Node :=
                    match l with
                    | [] => ∅
                    | (n, c) :: l =>
                        match mirror c with
                        | Some node => <[n := node]> (each l)
                        | None => each l
                        end
                    end) links))
  | H5Dataset class dims contents =>
      match getDataProperties class with
      | Returns (mem_type, _, _) =>
          Some (Leaf {| type_ := class; rank_ := length dims; dims_ := dims;
                        data_ := (mem_type, contents) |})
      | _ => None
      end
  | H5NamedDatatype => None
  end.

(** Leaves of a tree and datasets of a container, with their shapes. *)
Fixpoint leaf_shapes (n : Node) : list (list N) :=
  match n with
  | Leaf d => [getDims d]
  | Map children => map_fold (fun _ c acc => leaf_shapes c ++ acc) [] children
  end.

Fixpoint dataset_shapes (o : H5Object) : list (list N) :=
  match o with
  | H5Group links =>
      (fix each (l : Location) : list (list N) :=
         match l with
         | [] => []
         | (_, c) :: l => dataset_shapes c ++ each l
         end) links
  | H5Dataset _ dims _ => [dims]
  | H5NamedDatatype => []
  end.

(** ** The rest of the planning stack *)

(** *** std::string::find *)

(** [s.find(str)]: the first position at which [str] occurs in [s], or
    [npos] ([None]). *)
Fixpoint string_find (str s : string) : option nat :=
  if String.prefix str s then Some 0
  else match s with
       | EmptyString => None
       | String _ s => option_map S (string_find str s)
       end.

(** [str] occurs in [s]. *)
Definition occurs (str s : string) : Prop := exists a b, s = (a ++ str ++ b)%string.

(** *** MotionRequestBuilder::MotionRequestBuilder *)

Definition DEFAULT_CONFIG : string := "RRTConnect".

(** A default-constructed request message. *)
Definition empty_request : MotionPlanRequest :=
  {| group_name := "";
     workspace_parameters :=
       {| min_corner := {| x := 0%float; y := 0%float; z := 0%float |};
          max_corner := {| x := 0%float; y := 0%float; z := 0%float |} |};
     allowed_planning_time := 0%float;
     planner_id := "";
     start_state := {| joint_state := {| name := []; position := [] |} |};
     goal_constraints := [] |}.

Definition with_group_name (g : string) (r : MotionPlanRequest) :=
  {| group_name := g; workspace_parameters := workspace_parameters r;
     allowed_planning_time := allowed_planning_time r; planner_id := planner_id r;
     start_state := start_state r; goal_constraints := goal_constraints r |}.

Definition with_allowed_planning_time (t : double) (r : MotionPlanRequest) :=
  {| group_name := group_name r; workspace_parameters := workspace_parameters r;
     allowed_planning_time := t; planner_id := planner_id r;
     start_state := start_state r; goal_constraints := goal_constraints r |}.

Definition with_planner_id (id : string) (r : MotionPlanRequest) :=
  {| group_name := group_name r; workspace_parameters := workspace_parameters r;
     allowed_planning_time := allowed_planning_time r; planner_id := id;
     start_state := start_state r; goal_constraints := goal_constraints r |}.

(** The lambda given to [std::find_if]. *)
Definition is_default_config (s : string) : bool :=
  match string_find DEFAULT_CONFIG s with
  | Some _ => true
  | None => false
  end.

(** The constructor, on the configurations that [planner.getPlannerConfigs()]
    returns: the value of [request_] when it ends. *)
Definition MotionRequestBuilder_new (configs : list string) (group_name_ : string)
  : MotionPlanRequest :=
  let request_ := empty_request in
  let request_ := with_group_name group_name_ request_ in
  let wp :=
    {| min_corner := {| x := (-1)%float; y := (-1)%float; z := (-1)%float |};
       max_corner := {| x := 1%float; y := 1%float; z := 1%float |} |} in
  let request_ := with_workspace_parameters wp request_ in
  let request_ := with_allowed_planning_time 5.0%float request_ in
  match List.find is_default_config configs with
  | Some found => with_planner_id found request_
  | None => request_
  end.

(** *** IO::Handler, OMPL::Settings, the planners' [initialize]

    A handler is known by the calls made on it, oldest first.  The values of
    parameters, YAML nodes and the reading of a YAML file belong to ROS,
    yaml-cpp and the file system. *)
Context {ParamValue YAML : Type}.
Variable string_value : string -> ParamValue.
Variable loadFileToYAML : string -> bool * YAML.
(** The keys of [node["planner_configs"]], in iteration order; [None] when
    that node is not defined. *)
Variable planner_configs : YAML -> option (list string).
Inductive HandlerCall :=
| setParam (key : string) (value : ParamValue)
| loadYAMLtoROS (node : YAML).

Abbreviation Handler := (list HandlerCall).

(** [new planning_pipeline::PlanningPipeline(robot_.getModel(),
    handler_.getHandle(), "planning_plugin", "request_adapters")] *)
Variable newPlanningPipeline : Handler -> Pipeline.

Record Settings := {
  max_goal_samples : ParamValue;
  max_goal_sampling_attempts : ParamValue;
  max_planning_threads : ParamValue;
  max_solution_segment_length : ParamValue;
  max_state_sampling_attempts : ParamValue;
  minimum_waypoint_count : ParamValue;
  simplify_solutions : ParamValue;
  use_constraints_approximations : ParamValue;
  display_random_valid_states : ParamValue;
  link_for_exploration_tree : ParamValue;
  maximum_waypoint_distance : ParamValue
}.

Definition Settings_setParam (settings : Settings) (handler : Handler) : Handler :=
  let prefix := "ompl/"%string in
  let handler := push_back handler (setParam (prefix ++ "max_goal_samples") (max_goal_samples settings)) in
  let handler := push_back handler (setParam (prefix ++ "max_goal_sampling_attempts") (max_goal_sampling_attempts settings)) in
  let handler := push_back handler (setParam (prefix ++ "max_planning_threads") (max_planning_threads settings)) in
  let handler := push_back handler (setParam (prefix ++ "max_solution_segment_length") (max_solution_segment_length settings)) in
  let handler := push_back handler (setParam (prefix ++ "max_state_sampling_attempts") (max_state_sampling_attempts settings)) in
  let handler := push_back handler (setParam (prefix ++ "minimum_waypoint_count") (minimum_waypoint_count settings)) in
  let handler := push_back handler (setParam (prefix ++ "simplify_solutions") (simplify_solutions settings)) in
  let handler := push_back handler (setParam (prefix ++ "use_constraints_approximations") (use_constraints_approximations settings)) in
  let handler := push_back handler (setParam (prefix ++ "display_random_valid_states") (display_random_valid_states settings)) in
  let handler := push_back handler (setParam (prefix ++ "link_for_exploration_tree") (link_for_exploration_tree settings)) in
  push_back handler (setParam (prefix ++ "maximum_waypoint_distance") (maximum_waypoint_distance settings)).

(** [loadOMPLConfig(handler, config_file, configs)]: the returned flag, and
    the two reference arguments when it returns. *)
Definition loadOMPLConfig (handler : Handler) (config_file : string) (configs : list string)
  : bool * Handler * list string :=
  if String.eqb config_file "" then (false, handler, configs)
  else
    let config := loadFileToYAML config_file in
    if negb (fst config) then (false, handler, configs)
    else
      let handler := push_back handler (loadYAMLtoROS (snd config)) in
      let configs :=
        match planner_configs (snd config) with
        | Some keys => fold_left push_back keys configs
        | None => configs
        end in
      (true, handler, configs).

(** The members of a planner that [initialize] writes. *)
Record PlannerMembers := {
  handler_ : Handler;
  configs_ : list string;
  planner_pipeline_ : option Pipeline     (* [pipeline_] of a PipelinePlanner *)
}.

(** The loop that writes [adapters] to the stream [ss]; [i] and
    [adapters.size() - 1] are of type [std::size_t] (64 bits). *)
Definition write_adapter (adapters : list string) (ss : string) (i : nat) : string :=
  let ss := (ss ++ nth i adapters "")%string in
  if (Z.of_nat i <? to_unsigned 64 (Z.of_nat (length adapters) - 1))%Z
  then (ss ++ " ")%string else ss.

Definition join_adapters (adapters : list string) : string :=
  fold_left (write_adapter adapters) (seq 0 (length adapters)) ""%string.

Definition OMPLPipelinePlanner_initialize (config_file : string) (settings : Settings)
    (plugin : string) (adapters : list string) (this : PlannerMembers)
  : bool * PlannerMembers :=
  let '(loaded, handler_, configs_) := loadOMPLConfig (handler_ this) config_file (configs_ this) in
  if negb loaded
  then (false, {| handler_ := handler_; configs_ := configs_;
                  planner_pipeline_ := planner_pipeline_ this |})
  else
    let handler_ := push_back handler_ (setParam "planning_plugin" (string_value plugin)) in
    let ss := join_adapters adapters in
    let handler_ := push_back handler_ (setParam "request_adapters" (string_value ss)) in
    let handler_ := Settings_setParam settings handler_ in
    (true, {| handler_ := handler_; configs_ := configs_;
              planner_pipeline_ := Some (newPlanningPipeline handler_) |}).

Definition OMPLInterfacePlanner_initialize (config_file : string) (settings : Settings)
    (this : PlannerMembers) : bool * PlannerMembers :=
  let '(loaded, handler_, configs_) := loadOMPLConfig (handler_ this) config_file (configs_ this) in
  if negb loaded
  then (false, {| handler_ := handler_; configs_ := configs_;
                  planner_pipeline_ := planner_pipeline_ this |})
  else
    let handler_ := Settings_setParam settings handler_ in
    (true, {| handler_ := handler_; configs_ := configs_;
              planner_pipeline_ := planner_pipeline_ this |}).

Definition getPlannerConfigs (this : PlannerMembers) : list string := configs_ this.

Definition DEFAULT_ADAPTERS : list string :=
  ["default_planner_request_adapters/AddTimeParameterization";
   "default_planner_request_adapters/FixWorkspaceBounds";
   "default_planner_request_adapters/FixStartStateBounds";
   "default_planner_request_adapters/FixStartStateCollision";
   "default_planner_request_adapters/FixStartStatePathConstraints"]%string.

(** *** TMPackInterface::plan *)

(** [getTaskPlan] is pure virtual: any computation of a list of goals. *)
Variable getTaskPlan : M World Event (list (list double)).


(** The requests handed to the planner, as a trace shows them. *)
Definition planner_request_of (e : Event) : option MotionPlanRequest :=
  match e with
  | planner_plan request => Some request
  | _ => None
  end.

Definition planner_requests (t : list Event) : list MotionPlanRequest :=
  omap planner_request_of t.

Definition is_start_setter (c : BuilderCall) : bool :=
  match c with
  | SetStartConfiguration _ => true
  | _ => false
  end.

Definition is_workspace_setter (c : BuilderCall) : bool :=
  match c with
  | SetWorkspaceBounds _ => true
  | _ => false
  end.

(** ** More about containers and trees *)

(** The datasets below an object: class, shape and contents of each. *)
Fixpoint datasets_of (o : H5Object) : list (H5T_class_t * list N * Contents) :=
  match o with
  | H5Group links =>
      (fix each (l : Location) : list (H5T_class_t * list N * Contents) :=
         match l with
         | [] => []
         | (_, c) :: l => datasets_of c ++ each l
         end) links
  | H5Dataset class dims contents => [(class, dims, contents)]
  | H5NamedDatatype => []
  end.

(** Every leaf of a tree has the property [P]. *)
Inductive all_leaves (P : HDF5Data -> Prop) : Node -> Prop :=
| all_leaves_Leaf (d : HDF5Data) : P d -> all_leaves P (Leaf d)
| all_leaves_Map (children : gmap string Node) :
    (forall key n, children !! key = Some n -> all_leaves P n) ->
    all_leaves P (Map children).

(** The two halves of [well_formed]: the link names, and the datasets. *)
Fixpoint names_well_formed (o : H5Object) : bool :=
  match o with
  | H5Group links =>
      bool_decide (NoDup (map fst links))
      && (fix each (l : Location) : bool :=
            match l with
            | [] => true
            | (n, c) :: l => negb (String.eqb n "") && names_well_formed c && each l
            end) links
  | _ => true
  end.

Fixpoint datasets_loadable (o : H5Object) : bool :=
  match o with
  | H5Group links =>
      (fix each (l : Location) : bool :=
         match l with
         | [] => true
         | (_, c) :: l => datasets_loadable c && each l
         end) links
  | H5Dataset class dims _ =>
      match getDataProperties class with
      | Returns (_, size, _) => (read_size size dims <? 2 ^ 32)%Z
      | _ => false
      end
  | H5NamedDatatype => true
  end.

Definition is_group (o : H5Object) : bool :=
  match o with
  | H5Group _ => true
  | _ => false
  end.

(** A dataset object that stands for one of the datasets [ds]: integer or
    floating-point class, rank and shape in agreement, and class, shape and
    contents those of a member of [ds]. *)
Definition stands_for (ds : list (H5T_class_t * list N * Contents)) (d : HDF5Data) : Prop :=
  (type_ d = H5T_INTEGER \/ type_ d = H5T_FLOAT)
  /\ rank_ d = length (dims_ d)
  /\ In (type_ d, dims_ d, snd (data_ d)) ds.

(** The links of a group entered one after the other, in index order, each
    under its name, with the node that mirrors it. *)
Definition entered (links : Location) (node : gmap string Node) : gmap string Node :=
  fold_left (fun m nc => match mirror (snd nc) with
                         | Some v => <[fst nc := v]> m
                         | None => m
                         end) links node.

(** *** The tree of a depth-first walk

    [loaded node name o]: the map [node] once the object [o], found under
    [name], has been walked into it.  The members of a group are walked in
    index order, each into a map of its own that is stored under the
    member's name; a dataset is stored under [name]; any other object
    leaves the map as it is. *)
Fixpoint loaded (node : gmap string Node) (name : string) (o : H5Object) : gmap string Node :=
  match o with
  | H5Group links =>
      (fix each (l : Location) (node : gmap string Node) : gmap string Node :=
         match l with
         | [] => node
         | (n, c) :: l => each l (<[n := Map (loaded ∅ n c)]> node)
         end) links node
  | H5Dataset class dims contents =>
      match getDataProperties class with
      | Returns (mem_type, _, _) =>
          <[name := Leaf {| type_ := class; rank_ := length dims; dims_ := dims;
                            data_ := (mem_type, contents) |}]> node
      | _ => node
      end
  | H5NamedDatatype => node
  end.

(** The walk of a whole file, from the empty map. *)
Definition depth_first_tree (file_ : Location) : gmap string Node :=
  fold_left (fun data_ nc => loaded data_ (fst nc) (snd nc)) file_ ∅.

(** The number of objects below [o]. *)
Fixpoint members (o : H5Object) : nat :=
  match o with
  | H5Group links =>
      (fix each (l : Location) : nat :=
         match l with
         | [] => 0
         | (_, c) :: l => S (members c) + each l
         end) links
  | _ => 0
  end.

(** The life of an [HDF5File]: it is constructed, then [getDims], [getData]
    and [getStatus] are called on datasets of its tree.  The result is the
    tree at the end, with the calls of [loadData] made on the way. *)
Definition HDF5File_then (file_ : Location) (qs : list (list string * Method))
  : L (gmap string Node) :=
  (let* data_ := HDF5File file_ in Lret (queries qs data_))%h5.

(** * Properties *)

(** *** Properties of the request builder *)

Lemma setGoalConfiguration_goal_constraints (joints : list double) (r : MotionPlanRequest) :
  goal_constraints (setGoalConfiguration joints r)
  = [constructGoalConstraints (setJointGroupPositions joints newRobotState)].
Proof. reflexivity. Qed.

Lemma setGoalRegion_goal_constraints e b p g o t (r : MotionPlanRequest) :
  goal_constraints (setGoalRegion e b p g o t r)
  = [ {| joint_constraints := [];
         position_constraints := [getPositionConstraint e b p g];
         orientation_constraints := [getOrientationConstraint e b o t] |} ].
Proof. reflexivity. Qed.

Lemma builder_call_goal_constraints (c : BuilderCall) (r : MotionPlanRequest) :
  length (goal_constraints (builder_call r c))
  = if is_goal_setter c then 1 else length (goal_constraints r).
Proof. destruct c; reflexivity. Qed.

Lemma builder_calls_snoc (cs : list BuilderCall) (c : BuilderCall) (r : MotionPlanRequest) :
  builder_calls (cs ++ [c]) r = builder_call (builder_calls cs r) c.
Proof. unfold builder_calls. now rewrite fold_left_app. Qed.

Lemma builder_calls_app (cs cs' : list BuilderCall) (r : MotionPlanRequest) :
  builder_calls (cs ++ cs') r = builder_calls cs' (builder_calls cs r).
Proof. unfold builder_calls. now rewrite fold_left_app. Qed.

Lemma builder_calls_keep_goal (cs : list BuilderCall) (r : MotionPlanRequest) :
  existsb is_goal_setter cs = false ->
  goal_constraints (builder_calls cs r) = goal_constraints r.
Proof.
  revert r. induction cs as [|c cs IH]; intros r Hnone; [reflexivity|].
  cbn in Hnone. apply orb_false_iff in Hnone as [Hc Hcs].
  change (builder_calls (c :: cs) r) with (builder_calls cs (builder_call r c)).
  rewrite (IH _ Hcs). now destruct c.
Qed.

Lemma existsb_last {A} (f : A -> bool) (l : list A) :
  existsb f l = true ->
  exists before a after, l = before ++ a :: after /\ f a = true /\ existsb f after = false.
Proof.
  induction l as [|a l IH]; intros Hsome; [discriminate|].
  destruct (existsb f l) eqn:Hl.
  - destruct (IH eq_refl) as (before & b & after & -> & Hb & Hafter).
    now exists (a :: before), b, after.
  - cbn in Hsome. rewrite Hl, orb_false_r in Hsome. now exists [], a, l.
Qed.

(** C8.  After a sequence of calls of the builder's methods in which a goal
    setter ([setGoalConfiguration] or [setGoalRegion]) occurs, whatever the
    number of calls and whatever the request held before, [goal_constraints]
    has exactly one entry: the constraint that the last goal setter of the
    sequence built from its own arguments.  Whatever was there before that
    setter is gone, and what it pushed is what is left. *)
Theorem goal_constraints_exactly_one (cs : list BuilderCall) (r : MotionPlanRequest) :
  existsb is_goal_setter cs = true ->
  length (goal_constraints (builder_calls cs r)) = 1
  /\ exists before c after goal,
       cs = before ++ c :: after
       /\ existsb is_goal_setter after = false
       /\ pushed_goal c = Some goal
       /\ goal_constraints (builder_calls cs r) = [goal].
Proof.
  intros Hsome.
  destruct (existsb_last is_goal_setter cs Hsome) as (before & c & after & -> & Hc & Hafter).
  assert (Hgoal : goal_constraints (builder_calls (before ++ c :: after) r)
                  = goal_constraints (builder_call (builder_calls before r) c)).
  { rewrite builder_calls_app.
    change (builder_calls (c :: after) ?x) with (builder_calls after (builder_call x c)).
    now rewrite (builder_calls_keep_goal _ _ Hafter). }
  rewrite Hgoal. split.
  - destruct c; try discriminate Hc; reflexivity.
  - exists before, c, after.
    destruct c as [wp|joints|joints|e b p g o t]; try discriminate Hc.
    + refine (ex_intro _ _ (conj eq_refl (conj Hafter (conj eq_refl _)))). reflexivity.
    + refine (ex_intro _ _ (conj eq_refl (conj Hafter (conj eq_refl _)))). reflexivity.
Qed.

(** *** Properties of the planners *)

Lemma PipelinePlanner_plan_unset (sc : Scene) (rq : MotionPlanRequest) (w : World) :
  pipeline_ w = None ->
  PipelinePlanner_plan sc rq w = (default_response, w, []).
Proof.
  intros Hp. unfold PipelinePlanner_plan, bind, get, ret. now rewrite Hp.
Qed.

Lemma OMPLInterfacePlanner_plan_no_context (sc : Scene) (rq : MotionPlanRequest) (w : World) :
  fst (getPlanningContext sc rq (env w)) = None ->
  OMPLInterfacePlanner_plan sc rq w
  = (with_error_code FAILURE default_response,
     with_env (snd (getPlanningContext sc rq (env w))) w,
     [interface_getPlanningContext rq]).
Proof.
  intros Hc. unfold OMPLInterfacePlanner_plan, bind, call, extern, ret.
  destruct (getPlanningContext sc rq (env w)) as [c e]. cbn in Hc. now subst c.
Qed.

(** C9.  With no backend, either planner returns a response that does not
    report success and makes no planning call: [PipelinePlanner::plan] with
    [pipeline_] unset returns the default-constructed response, changes
    nothing and calls nothing; [OMPLInterfacePlanner::plan], when
    [getPlanningContext] returns a null context, returns a response whose
    error code is FAILURE, and its only call is [getPlanningContext] (neither
    [clear] nor [solve]). *)
Theorem plan_without_backend (sc : Scene) (rq : MotionPlanRequest) (w : World) :
  (pipeline_ w = None ->
     result (PipelinePlanner_plan sc rq w) = default_response
     /\ world (PipelinePlanner_plan sc rq w) = w
     /\ trace (PipelinePlanner_plan sc rq w) = []
     /\ val (error_code_ (result (PipelinePlanner_plan sc rq w))) <> SUCCESS)
  /\ (fst (getPlanningContext sc rq (env w)) = None ->
     val (error_code_ (result (OMPLInterfacePlanner_plan sc rq w))) = FAILURE
     /\ trace (OMPLInterfacePlanner_plan sc rq w) = [interface_getPlanningContext rq]
     /\ ~ In context_solve (trace (OMPLInterfacePlanner_plan sc rq w))).
Proof.
  split.
  - intros Hp. rewrite (PipelinePlanner_plan_unset sc rq w Hp). cbn.
    repeat split; discriminate.
  - intros Hc. rewrite (OMPLInterfacePlanner_plan_no_context sc rq w Hc). cbn.
    repeat split. intros [E|[]]. discriminate E.
Qed.

(** *** Properties of [plan_linearly] *)

Lemma bind_run {A B} (m : M World Event A) (f : A -> M World Event B) (w : World) :
  bind m f w
  = (result (f (result (m w)) (world (m w))),
     world (f (result (m w)) (world (m w))),
     trace (m w) ++ trace (f (result (m w)) (world (m w)))).
Proof.
  unfold bind, result, world, trace.
  destruct (m w) as [[a w1] t1]. cbn.
  destruct (f a w1) as [[b w2] t2]. reflexivity.
Qed.

Lemma result_bind {A B} (m : M World Event A) (f : A -> M World Event B) w :
  result (bind m f w) = result (f (result (m w)) (world (m w))).
Proof. now rewrite bind_run. Qed.

Lemma world_bind {A B} (m : M World Event A) (f : A -> M World Event B) w :
  world (bind m f w) = world (f (result (m w)) (world (m w))).
Proof. now rewrite bind_run. Qed.

Lemma trace_bind {A B} (m : M World Event A) (f : A -> M World Event B) w :
  trace (bind m f w) = trace (m w) ++ trace (f (result (m w)) (world (m w))).
Proof. now rewrite bind_run. Qed.

Lemma steps_app (t1 t2 : list Event) : steps (t1 ++ t2) = steps t1 ++ steps t2.
Proof. apply omap_app. Qed.

Lemma returned_app (t1 t2 : list Event) : returned (t1 ++ t2) = returned t1 ++ returned t2.
Proof. apply omap_app. Qed.

(** The planner works on [env] only and makes none of the loop's calls. *)
Lemma PipelinePlanner_plan_frame (sc : Scene) (rq : MotionPlanRequest) (w : World) :
  robot (world (PipelinePlanner_plan sc rq w)) = robot w
  /\ request_ (world (PipelinePlanner_plan sc rq w)) = request_ w
  /\ steps (trace (PipelinePlanner_plan sc rq w)) = []
  /\ returned (trace (PipelinePlanner_plan sc rq w)) = [].
Proof.
  unfold PipelinePlanner_plan, bind, get, call, extern, ret.
  destruct (pipeline_ w) as [p|]; [|now cbn].
  destruct (generatePlan p sc rq default_response (env w)) as [resp e]. now cbn.
Qed.

Lemma plan_goal_run g rs ns w :
  plan_goal g rs ns w
  = ((push_back rs (result (planned g ns w)), result (planned g ns w)),
     world (planned g ns w),
     [constraint_helper_planLinearly_Callback g ns;
      scene_graph_helper_planLinearly_Callback g;
      planner_plan (getRequest (request_ (helped g ns w)))]
     ++ trace (planned g ns w) ++ [planner_returned (result (planned g ns w))]).
Proof.
  unfold plan_goal, planned, helped.
  repeat (rewrite bind_run; cbn [call modify get ret result world trace fst snd]).
  now rewrite app_nil_r.
Qed.

Lemma reseed_run (response : MotionPlanResponse) (w : World) :
  reseed response w
  = (let next := getState (setStateNamed (getFinalJointPositions response) (robot w)) in
     (next,
      with_request (setStartConfiguration next)
        (with_robot (setState (getState (robot w)))
           (with_robot (setStateNamed (getFinalJointPositions response)) w)),
      [])).
Proof. reflexivity. Qed.

Lemma plan_linearly_body_run g rs ns w :
  plan_linearly_body g (rs, ns) w
  = (let p := plan_goal g rs ns w in
     let r := reseed (snd (result p)) (world p) in
     ((fst (result p), result r), world r, trace p)).
Proof.
  unfold plan_linearly_body.
  rewrite bind_run.
  destruct (plan_goal g rs ns w) as [[[rs' resp] w1] t1].
  cbn [result world trace fst snd].
  rewrite bind_run. rewrite reseed_run.
  cbn [ret result world trace fst snd]. now rewrite !app_nil_r.
Qed.

Lemma run_eta {A} (r : A * World * list Event) : (result r, world r, trace r) = r.
Proof. now destruct r as [[a w] t]. Qed.

Lemma plan_linearly_loop_app gs gs' locals w :
  plan_linearly_loop (gs ++ gs') locals w
  = bind (plan_linearly_loop gs locals) (plan_linearly_loop gs') w.
Proof.
  revert locals w. induction gs as [|g gs IH]; intros locals w.
  - rewrite bind_run. cbn. now rewrite run_eta.
  - cbn [app plan_linearly_loop]. rewrite !bind_run.
    rewrite IH, !bind_run. cbn [result world trace fst snd].
    now rewrite app_assoc.
Qed.

Lemma plan_linearly_locals_app gs gs' w :
  plan_linearly_locals (gs ++ gs') w
  = bind (plan_linearly_locals gs) (plan_linearly_loop gs') w.
Proof.
  unfold plan_linearly_locals. rewrite !bind_run.
  rewrite plan_linearly_loop_app, !bind_run. cbn [result world trace fst snd].
  now rewrite app_assoc.
Qed.

Lemma plan_linearly_loop_one g locals w :
  plan_linearly_loop [g] locals w = plan_linearly_body g locals w.
Proof. cbn. rewrite bind_run. cbn. now rewrite app_nil_r, run_eta. Qed.

(** The loop only appends to [responses], one response per goal. *)
Lemma plan_linearly_loop_responses goals rs ns w :
  exists new,
    fst (result (plan_linearly_loop goals (rs, ns) w)) = rs ++ new
    /\ length new = length goals
    /\ new = returned (trace (plan_linearly_loop goals (rs, ns) w)).
Proof.
  revert rs ns w. induction goals as [|g goals IH]; intros rs ns w.
  - exists []. cbn. now rewrite app_nil_r.
  - cbn [plan_linearly_loop]. rewrite bind_run, plan_linearly_body_run.
    cbn [result world trace fst snd]. rewrite plan_goal_run.
    cbn [result world trace fst snd].
    match goal with |- context [plan_linearly_loop goals (?rs', ?ns') ?w'] =>
      destruct (IH rs' ns' w') as (new & Hnew & Hlen & Hret) end.
    exists (result (planned g ns w) :: new). rewrite Hnew. unfold push_back in *.
    split; [now rewrite <- app_assoc|]. split; [cbn; now rewrite Hlen|].
    rewrite !returned_app, <- Hret.
    destruct (PipelinePlanner_plan_frame (scene (helped g ns w))
                (getRequest (request_ (helped g ns w))) (helped g ns w)) as (_ & _ & _ & Hp).
    unfold planned. now rewrite Hp.
Qed.

Lemma plan_linearly_loop_steps goals locals w :
  steps (trace (plan_linearly_loop goals locals w))
  = flat_map (fun g => [ConstraintStep g; SceneGraphStep g; PlannerStep]) goals.
Proof.
  revert locals w. induction goals as [|g goals IH]; intros [rs ns] w.
  - reflexivity.
  - cbn [plan_linearly_loop flat_map]. rewrite bind_run, plan_linearly_body_run.
    cbn [result world trace fst snd]. rewrite steps_app, IH. f_equal.
    rewrite plan_goal_run. cbn [trace snd]. rewrite !steps_app.
    destruct (PipelinePlanner_plan_frame (scene (helped g ns w))
                (getRequest (request_ (helped g ns w))) (helped g ns w)) as (_ & _ & Hp & _).
    unfold planned. now rewrite Hp.
Qed.

Lemma plan_linearly_init_run w :
  plan_linearly_init w
  = (([], tmp ++ position (joint_state (start_state (request_ w)))), w, []).
Proof. reflexivity. Qed.

Lemma plan_linearly_locals_run goals w :
  plan_linearly_locals goals w
  = plan_linearly_loop goals
      ([], tmp ++ position (joint_state (start_state (request_ w)))) w.
Proof.
  unfold plan_linearly_locals. rewrite bind_run, plan_linearly_init_run.
  cbn [result world trace fst snd app]. now rewrite run_eta.
Qed.

Lemma plan_linearly_run goals w :
  plan_linearly goals w
  = (fst (result (plan_linearly_locals goals w)),
     world (plan_linearly_locals goals w),
     trace (plan_linearly_locals goals w)).
Proof.
  unfold plan_linearly. rewrite bind_run.
  destruct (plan_linearly_locals goals w) as [[[rs ns] w'] t].
  cbn. now rewrite app_nil_r.
Qed.

(** C4.  The list that [plan_linearly] returns has the length of the list
    of goals, the empty list included. *)
Theorem plan_linearly_length (goals : list (list double)) (w : World) :
  length (result (plan_linearly goals w)) = length goals.
Proof.
  rewrite plan_linearly_run, plan_linearly_locals_run. cbn [result fst].
  destruct (plan_linearly_loop_responses goals [] (tmp ++ position (joint_state (start_state (request_ w)))) w)
    as (new & Hnew & Hlen & _).
  now rewrite Hnew.
Qed.

Lemma plan_linearly_locals_snoc done g w :
  plan_linearly_locals (done ++ [g]) w
  = bind (plan_linearly_locals done) (plan_linearly_body g) w.
Proof. rewrite plan_linearly_locals_app, !bind_run. now rewrite plan_linearly_loop_one. Qed.

(** C6.  The loop's calls, in program order, are: for the first goal the
    constraint helper, then the scene-graph helper, then the planner, once
    each; then the same three for the second goal; and so on to the last.
    And the calls are made, with these effects: for the goal [g] that
    follows the goals [done], the constraint helper works on the world as
    the iterations for [done] left it, the scene-graph helper on the world
    the constraint helper left, the planner is run once, on the scene and
    the request of the world the scene-graph helper left, its response is
    appended, and only then is the start for the next goal read back; the
    calls for the goals after [g] all come later. *)
Theorem plan_linearly_call_order (w : World) :
  (forall goals,
     steps (trace (plan_linearly goals w))
     = flat_map (fun g => [ConstraintStep g; SceneGraphStep g; PlannerStep]) goals)
  /\ (forall done g rest,
        let before := plan_linearly_locals done w in
        let next_start := snd (result before) in
        let w1 := constraint_helper g next_start (world before) in
        let w2 := scene_graph_helper g w1 in
        let planner := PipelinePlanner_plan (scene w2) (getRequest (request_ w2)) w2 in
        let after := plan_linearly_locals (done ++ [g]) w in
        trace after
        = trace before
          ++ [constraint_helper_planLinearly_Callback g next_start;
              scene_graph_helper_planLinearly_Callback g;
              planner_plan (getRequest (request_ w2))]
          ++ trace planner ++ [planner_returned (result planner)]
        /\ fst (result after) = fst (result before) ++ [result planner]
        /\ world after = world (reseed (result planner) (world planner))
        /\ exists t, trace (plan_linearly (done ++ g :: rest) w) = trace after ++ t).
Proof.
  split.
  - intros goals. rewrite plan_linearly_run, plan_linearly_locals_run. cbn [trace snd].
    apply plan_linearly_loop_steps.
  - intros done g rest. cbv zeta.
    rewrite plan_linearly_locals_snoc, bind_run. cbn [result world trace fst snd].
    destruct (result (plan_linearly_locals done w)) as [rs ns] eqn:Eb.
    rewrite plan_linearly_body_run. cbn [result world trace fst snd].
    rewrite plan_goal_run. cbn [result world trace fst snd].
    unfold planned, helped, push_back.
    split; [reflexivity|]. split; [reflexivity|]. split; [reflexivity|].
    replace (done ++ g :: rest) with ((done ++ [g]) ++ rest) by now rewrite <- app_assoc.
    rewrite plan_linearly_run. cbn [trace snd].
    rewrite plan_linearly_locals_app, bind_run. cbn [trace snd].
    rewrite plan_linearly_locals_snoc, bind_run. cbn [result world trace fst snd].
    rewrite Eb, plan_linearly_body_run. cbn [result world trace fst snd].
    rewrite plan_goal_run. cbn [result world trace fst snd].
    unfold planned, helped. eexists. reflexivity.
Qed.

(** C3.  Whatever the planner returned for the goals before it, and whatever
    it returns for this one (no error code is looked at), the goal at
    position [length done] is planned, and the value that the planner
    returns for it is the entry at that position of the result; the result
    is the list of the values the planner returned, in call order, one per
    goal. *)
Theorem responses_appended_regardless
    (done : list (list double)) (g : list double) (rest : list (list double)) (w : World) :
  let before := plan_linearly_locals done w in
  let all := plan_linearly (done ++ g :: rest) w in
  nth_error (result all) (length done)
    = Some (result (planned g (snd (result before)) (world before)))
  /\ result all = returned (trace all)
  /\ length (returned (trace all)) = length (done ++ g :: rest).
Proof.
  cbv zeta. rewrite plan_linearly_run. cbn [result world trace fst snd].
  split.
  - rewrite plan_linearly_locals_app, bind_run. cbn [result fst].
    rewrite plan_linearly_locals_run.
    set (ns0 := tmp ++ position (joint_state (start_state (request_ w)))).
    destruct (plan_linearly_loop_responses done [] ns0 w) as (newd & Hd & Hlend & _).
    destruct (result (plan_linearly_loop done ([], ns0) w)) as [rsd nsd] eqn:Eb.
    cbn [fst snd app] in *. subst rsd.
    cbn [plan_linearly_loop]. rewrite bind_run, plan_linearly_body_run.
    cbn [result world trace fst snd]. rewrite plan_goal_run.
    cbn [result world trace fst snd].
    match goal with |- context [plan_linearly_loop rest (?rs', ?ns') ?w'] =>
      destruct (plan_linearly_loop_responses rest rs' ns' w') as (newr & Hr & _) end.
    rewrite Hr. unfold push_back. rewrite <- app_assoc, <- Hlend.
    rewrite nth_error_app2 by lia. now rewrite Nat.sub_diag.
  - rewrite plan_linearly_locals_run.
    destruct (plan_linearly_loop_responses (done ++ g :: rest) []
                (tmp ++ position (joint_state (start_state (request_ w)))) w)
      as (new & Hnew & Hlen & Hret).
    cbn [app] in Hnew. rewrite Hnew, <- Hret. now split.
Qed.

(** C1 (as the code has it).  The locals enter the loop with the fixed 7
    values followed by the joint positions of the request's start state.
    After the iteration for a goal, [next_start_joint_positions] is the
    robot's whole joint vector, read back after the final joint positions of
    that goal's response were set on the robot as the planner left it; no
    prefix is put before it.  That vector is written into the request by
    [setStartConfiguration], and it is the one the constraint helper receives
    first thing in the next iteration. *)
Theorem next_start_read_back_from_robot
    (done : list (list double)) (g g' : list double) (w : World) :
  let before := plan_linearly_locals done w in
  let this := planned g (snd (result before)) (world before) in
  let after := plan_linearly_locals (done ++ [g]) w in
  snd (result (plan_linearly_locals [] w))
    = tmp ++ position (joint_state (start_state (request_ w)))
  /\ snd (result after)
    = getState (setStateNamed (getFinalJointPositions (result this)) (robot (world this)))
  /\ start_state (request_ (world after))
    = start_state (setStartConfiguration (snd (result after)) (request_ (world this)))
  /\ exists t,
      trace (plan_linearly_locals (done ++ [g; g']) w)
      = trace after ++ constraint_helper_planLinearly_Callback g' (snd (result after)) :: t.
Proof.
  cbv zeta. split; [reflexivity|].
  assert (Hafter : plan_linearly_locals (done ++ [g]) w
                   = bind (plan_linearly_locals done) (plan_linearly_body g) w).
  { rewrite plan_linearly_locals_app, !bind_run. now rewrite plan_linearly_loop_one. }
  rewrite Hafter, bind_run. cbn [result world trace fst snd].
  destruct (result (plan_linearly_locals done w)) as [rs ns] eqn:Eb.
  rewrite plan_linearly_body_run. cbn [result world trace fst snd].
  rewrite plan_goal_run. cbn [result world trace fst snd].
  rewrite reseed_run. cbn [result world trace fst snd].
  split; [reflexivity|]. split; [reflexivity|].
  replace (done ++ [g; g']) with ((done ++ [g]) ++ [g']) by now rewrite <- app_assoc.
  rewrite plan_linearly_locals_app, bind_run, plan_linearly_loop_one.
  cbn [trace snd]. rewrite Hafter, bind_run. cbn [result world trace fst snd].
  rewrite Eb, !plan_linearly_body_run. cbn [result world trace fst snd].
  rewrite !plan_goal_run. cbn [result world trace fst snd].
  rewrite reseed_run. cbn [result world trace fst snd].
  rewrite plan_linearly_body_run. cbn [result world trace fst snd].
  rewrite plan_goal_run. cbn [result world trace fst snd app].
  eexists. reflexivity.
Qed.

(** C10 (as the code has it).  Lines 85-89 leave the robot as they found
    it: the robot's state after [reseed] is the state before it.  Hence the
    robot after an iteration is the robot as the two helpers of that
    iteration left it. *)
Theorem robot_restored_after_read_back {laws : RobotLaws Robot}
    (g : list double) (rs : list MotionPlanResponse) (ns : list double)
    (response : MotionPlanResponse) (w : World) :
  robot (world (reseed response w)) = robot w
  /\ robot (world (plan_linearly_body g (rs, ns) w)) = robot (helped g ns w).
Proof.
  assert (Hre : forall resp w', robot (world (reseed resp w')) = robot w').
  { intros resp w'. rewrite reseed_run. cbn.
    destruct (setStateNamed_setState (getFinalJointPositions resp) (robot w')) as [v ->].
    apply setState_restores. }
  split; [apply Hre|].
  rewrite plan_linearly_body_run. cbn [world fst snd]. rewrite Hre.
  rewrite plan_goal_run. cbn [world fst snd].
  now destruct (PipelinePlanner_plan_frame (scene (helped g ns w))
                  (getRequest (request_ (helped g ns w))) (helped g ns w)) as (Hr & _).
Qed.

(** *** Properties of the loader *)

Lemma find_link_In (l : Location) (n : string) (c : H5Object) :
  NoDup (map fst l) -> In (n, c) l -> find_link l n = Some c.
Proof.
  induction l as [|[n' c'] l IH]; intros Hnd Hin; [destruct Hin|].
  cbn in Hnd. apply NoDup_cons in Hnd as [Hfresh Hnd].
  cbn. destruct Hin as [E|Hin].
  - injection E as -> ->. now rewrite String.eqb_refl.
  - destruct (String.eqb n' n) eqn:En; [|now apply IH].
    apply String.eqb_eq in En. subst n'. exfalso. apply Hfresh.
    apply list_elem_of_In. change n with (fst (n, c)). now apply in_map.
Qed.

Lemma preorder_group (links : Location) :
  preorder (H5Group links)
  = flat_map (fun nc => (fst nc, type_of (snd nc)) :: preorder (snd nc)) links.
Proof.
  cbn. induction links as [|[n c] l IH]; [reflexivity|].
  cbn [flat_map fst snd]. now rewrite <- IH.
Qed.

Lemma depth_pos (o : H5Object) : 0 < depth o.
Proof. destruct o; cbn; lia. Qed.

Lemma depth_link (links : Location) (n : string) (c : H5Object) :
  In (n, c) links -> depth c < depth (H5Group links).
Proof.
  cbn. induction links as [|[n' c'] l IH]; intros Hin; [destruct Hin|].
  destruct Hin as [E|Hin].
  - injection E as -> ->. lia.
  - specialize (IH Hin). lia.
Qed.

Lemma well_formed_group (links : Location) :
  well_formed (H5Group links) = true ->
  NoDup (map fst links)
  /\ forall n c, In (n, c) links -> n <> ""%string /\ well_formed c = true.
Proof.
  cbn [well_formed]. intros Hwf. apply andb_true_iff in Hwf as [Hnd Hall].
  split; [now apply bool_decide_eq_true in Hnd|]. clear Hnd.
  induction links as [|[n' c'] l IH]; intros n c Hin; [destruct Hin|].
  apply andb_true_iff in Hall as [Hhead Hall].
  apply andb_true_iff in Hhead as [Hname Hc].
  destruct Hin as [E|Hin]; [|now apply IH].
  injection E as -> ->. split; [|exact Hc].
  intros ->. now rewrite String.eqb_refl in Hname.
Qed.

Lemma for_each_returns {S : Type} (l : Location) (body : string -> S -> L S) (s : S) :
  (forall n c s, In (n, c) l ->
     exists s', body n s = Some (Returns (s', (n, type_of c) :: preorder c))) ->
  exists s',
    for_each (map fst l) s body
    = Some (Returns (s', flat_map (fun nc => (fst nc, type_of (snd nc)) :: preorder (snd nc)) l)).
Proof.
  revert s. induction l as [|[n c] l IH]; intros s Hbody.
  - now exists s.
  - destruct (Hbody n c s (or_introl eq_refl)) as [s1 H1].
    destruct (IH s1) as [s2 H2].
    { intros n' c' s' Hin. apply Hbody. now right. }
    exists s2. cbn [map fst for_each]. rewrite H1. cbn [Lbind]. rewrite H2.
    reflexivity.
Qed.

Lemma loadData_returns (fuel : nat) :
  forall (node : gmap string Node) (location : Location) (name : string) (o : H5Object),
    find_link location name = Some o ->
    name <> ""%string ->
    well_formed o = true ->
    depth o <= fuel ->
    exists node',
      loadData fuel node location name = Some (Returns (node', (name, type_of o) :: preorder o)).
Proof.
  induction fuel as [|fuel IH]; intros node location name o Hfind Hname Hwf Hdepth.
  - pose proof (depth_pos o). lia.
  - cbn [loadData].
    apply String.eqb_neq in Hname. rewrite Hname. cbn [negb].
    unfold childObjType, openGroup, HDF5Data_new, openDataSet. rewrite Hfind.
    destruct o as [links|class dims contents|].
    + destruct (well_formed_group links Hwf) as [Hnd Hlinks].
      destruct (for_each_returns links
                  (fun obj node =>
                     Lbind (loadData fuel ∅ links obj)
                       (fun children => Lret (<[obj := Map children]> (<[obj := Map ∅]> node))))
                  node) as [node' Hloop].
      { intros n c s Hin. destruct (Hlinks n c Hin) as [Hn Hc].
        destruct (IH ∅ links n c) as [children Hchildren]; auto.
        - now apply find_link_In.
        - pose proof (depth_link links n c Hin). lia.
        - eexists. rewrite Hchildren. cbn. now rewrite app_nil_r. }
      exists node'. cbn [lift Lbind visit]. unfold listObjects.
      cbv zeta. rewrite Hloop. cbn [type_of app]. now rewrite preorder_group.
    + cbn [well_formed] in Hwf. cbn [lift Lbind visit type_of preorder].
      destruct (getDataProperties class) as [[[mem size] nm]| |]; try discriminate.
      apply negb_true_iff in Hwf. rewrite Hwf. eexists. reflexivity.
    + exists node. reflexivity.
Qed.

Lemma HDF5File_returns (file_ : Location) :
  well_formed (H5Group file_) = true ->
  exists data_, HDF5File file_ = Some (Returns (data_, preorder (H5Group file_))).
Proof.
  intros Hwf. destruct (well_formed_group file_ Hwf) as [Hnd Hlinks].
  unfold HDF5File, listObjects. rewrite preorder_group.
  apply for_each_returns. intros n c s Hin. destruct (Hlinks n c Hin) as [Hn Hc].
  apply loadData_returns; auto.
  - now apply find_link_In.
  - pose proof (depth_link file_ n c Hin). lia.
Qed.

(** The fuel that the constructor passes is enough for every file. *)

Lemma find_link_Some (l : Location) (n : string) (o : H5Object) :
  find_link l n = Some o -> In (n, o) l.
Proof.
  induction l as [|[n' c'] l IH]; cbn; [discriminate|].
  destruct (String.eqb n' n) eqn:En.
  - intros [= ->]. apply String.eqb_eq in En. subst. now left.
  - intros Hfind. right. now apply IH.
Qed.

Lemma Lbind_fuel {A B} (m : L A) (f : A -> L B) :
  m <> None -> (forall a, f a <> None) -> Lbind m f <> None.
Proof.
  intros Hm Hf. unfold Lbind. destruct m as [[[a t]| |]|]; try easy.
  specialize (Hf a). destruct (f a) as [[[b t']| |]|]; easy.
Qed.

Lemma for_each_fuel {S : Type} (names : list string) (body : string -> S -> L S) (s : S) :
  (forall n s, In n names -> body n s <> None) -> for_each names s body <> None.
Proof.
  revert s. induction names as [|n names IH]; intros s Hbody; [easy|].
  cbn [for_each]. apply Lbind_fuel.
  - apply Hbody. now left.
  - intros s'. apply IH. intros n' s'' Hin. apply Hbody. now right.
Qed.

Lemma group_loop_fuel (fuel : nat) (links : Location) (node : gmap string Node) :
  (forall node location name,
      (forall o, find_link location name = Some o -> depth o <= fuel) ->
      0 < fuel -> loadData fuel node location name <> None) ->
  depth (H5Group links) <= S fuel ->
  for_each (listObjects links) node
    (fun obj node =>
       Lbind (loadData fuel ∅ links obj)
         (fun children => Lret (<[obj := Map children]> (<[obj := Map ∅]> node))))
  <> None.
Proof.
  intros IH Hdepth. apply for_each_fuel. intros n s Hin.
  apply Lbind_fuel; [|easy].
  unfold listObjects in Hin. apply in_map_iff in Hin as ([n' c] & <- & Hin).
  pose proof (depth_link links n' c Hin) as Hc. pose proof (depth_pos c).
  apply IH; [|lia].
  intros o Hfind. apply find_link_Some in Hfind.
  pose proof (depth_link links _ o Hfind). lia.
Qed.

Lemma loadData_fuel (fuel : nat) :
  forall (node : gmap string Node) (location : Location) (name : string),
    (forall o, find_link location name = Some o -> depth o <= fuel) ->
    0 < fuel ->
    loadData fuel node location name <> None.
Proof.
  induction fuel as [|fuel IH]; intros node location name Hdepth Hpos; [lia|].
  cbn [loadData]. unfold childObjType, openGroup, HDF5Data_new, openDataSet.
  destruct (find_link location name) as [o|] eqn:Hfind.
  - specialize (Hdepth o eq_refl).
    destruct o as [links|class dims contents|].
    + assert (Hloop := group_loop_fuel fuel links node IH Hdepth).
      destruct (negb (String.eqb name "")); cbn [lift Lret Lbind visit];
        cbv zeta; destruct (for_each _ _ _) as [[[s t]| |]|]; easy.
    + destruct (negb (String.eqb name "")); cbn [lift Lret Lbind visit]; [|easy].
      destruct (getDataProperties class) as [[[mem size] nm]| |]; try easy.
      destruct (buffer_size size dims <? read_size size dims)%Z; easy.
    + destruct (negb (String.eqb name "")); easy.
  - destruct (negb (String.eqb name "")); easy.
Qed.

Lemma HDF5File_fuel (file_ : Location) : HDF5File file_ <> None.
Proof.
  unfold HDF5File. apply for_each_fuel. intros n s Hin.
  apply loadData_fuel; [|apply depth_pos].
  intros o Hfind. apply find_link_Some in Hfind.
  pose proof (depth_link file_ n o Hfind). lia.
Qed.

Lemma put_leaf_same (path : list string) (d : HDF5Data) (n : Node) :
  leaf_at path n = Some d -> put_leaf path d n = n.
Proof.
  revert n. induction path as [|key path IH]; intros [d'|children] Hleaf;
    cbn in *; try discriminate.
  - now injection Hleaf as ->.
  - destruct (children !! key) as [c|] eqn:Hc; [|discriminate].
    rewrite (IH c Hleaf). now rewrite insert_id.
Qed.

Lemma query_unchanged (q : list string * Method) (data_ : gmap string Node) :
  snd (query q data_) = data_.
Proof.
  unfold query. destruct (leaf_at (fst q) (Map data_)) as [d|] eqn:Hleaf; [|reflexivity].
  assert (Hsame : match put_leaf (fst q) d (Map data_) with
                  | Map m => m | Leaf _ => data_ end = data_).
  { now rewrite (put_leaf_same _ _ _ Hleaf). }
  destruct (snd q); cbn [call_method snd]; exact Hsame.
Qed.

Lemma queries_unchanged (qs : list (list string * Method)) (data_ : gmap string Node) :
  queries qs data_ = data_.
Proof.
  unfold queries. induction qs as [|q qs IH]; [reflexivity|].
  cbn [fold_left]. now rewrite query_unchanged.
Qed.

(** C5.  [getDataProperties] returns a triple exactly for the classes
    H5T_INTEGER and H5T_FLOAT (the native int, respectively double, memory
    type, its size and its name); for every other class control reaches the
    end of the function: no value is returned and nothing is thrown.  The
    constructor of [HDF5Data], which calls it, has no defined result either
    for a dataset of such a class. *)
Theorem getDataProperties_defined_iff (type_ : H5T_class_t) :
  ((exists p, getDataProperties type_ = Returns p)
     <-> (type_ = H5T_INTEGER \/ type_ = H5T_FLOAT))
  /\ getDataProperties H5T_INTEGER = Returns (NATIVE_INT, sizeof_int, "integer"%string)
  /\ getDataProperties H5T_FLOAT = Returns (NATIVE_DOUBLE, sizeof_double, "double"%string)
  /\ (type_ <> H5T_INTEGER -> type_ <> H5T_FLOAT -> getDataProperties type_ = Undefined)
  /\ getDataProperties type_ <> Throws
  /\ (forall location name dims contents,
        find_link location name = Some (H5Dataset type_ dims contents) ->
        type_ <> H5T_INTEGER -> type_ <> H5T_FLOAT ->
        HDF5Data_new location name = Undefined).
Proof.
  assert (Hother : type_ <> H5T_INTEGER -> type_ <> H5T_FLOAT ->
                   getDataProperties type_ = Undefined).
  { destruct type_; intros Hi Hf; try reflexivity; congruence. }
  repeat split.
  - intros [p Hp]. destruct type_; cbn in Hp; try discriminate; auto.
  - intros [-> | ->]; eexists; reflexivity.
  - exact Hother.
  - destruct type_; discriminate.
  - intros location name dims contents Hfind Hi Hf.
    unfold HDF5Data_new, openDataSet. rewrite Hfind. now rewrite (Hother Hi Hf).
Qed.

Lemma loaded_group (links : Location) (node : gmap string Node) (name : string) :
  loaded node name (H5Group links)
  = fold_left (fun node nc => <[fst nc := Map (loaded ∅ (fst nc) (snd nc))]> node) links node.
Proof.
  cbn [loaded]. revert node. induction links as [|[n c] l IH]; intros node; [reflexivity|].
  cbn [fold_left fst snd]. now rewrite <- IH.
Qed.

Lemma members_group (links : Location) :
  members (H5Group links) = list_sum (map (fun nc => S (members (snd nc))) links).
Proof.
  cbn [members]. unfold list_sum. induction links as [|[n c] l IH]; [reflexivity|].
  cbn [map fold_right snd]. now rewrite <- IH.
Qed.

Lemma preorder_members_bounded (n : nat) :
  forall o, depth o <= n -> length (preorder o) = members o.
Proof.
  induction n as [|n IH]; intros o Hdepth; [pose proof (depth_pos o); lia|].
  destruct o as [links|class dims contents|]; [|reflexivity|reflexivity].
  assert (Hlinks : forall m c, In (m, c) links -> length (preorder c) = members c).
  { intros m c Hin. apply IH. pose proof (depth_link links m c Hin). lia. }
  rewrite preorder_group, members_group. clear Hdepth.
  induction links as [|[m c] l IHl]; [reflexivity|].
  unfold list_sum in *. cbn [flat_map map fold_right fst snd].
  rewrite length_app, length_cons.
  f_equal.
  - f_equal. apply (Hlinks m c). now left.
  - apply IHl. intros m' c' Hin. apply (Hlinks m' c'). now right.
Qed.

Lemma for_each_runs {S : Type} (l : Location) (body : string -> S -> L S)
    (step : string -> H5Object -> S -> S) (s : S) :
  (forall n c s, In (n, c) l ->
     body n s = Some (Returns (step n c s, (n, type_of c) :: preorder c))) ->
  for_each (map fst l) s body
  = Some (Returns (fold_left (fun s nc => step (fst nc) (snd nc) s) l s,
                   flat_map (fun nc => (fst nc, type_of (snd nc)) :: preorder (snd nc)) l)).
Proof.
  revert s. induction l as [|[n c] l IH]; intros s Hbody; [reflexivity|].
  cbn [map fst for_each]. rewrite (Hbody n c s (or_introl eq_refl)). cbn [Lbind].
  rewrite IH by (intros n' c' s' Hin; apply Hbody; now right).
  reflexivity.
Qed.

Lemma loadData_runs (fuel : nat) :
  forall (node : gmap string Node) (location : Location) (name : string) (o : H5Object),
    find_link location name = Some o ->
    name <> ""%string ->
    well_formed o = true ->
    depth o <= fuel ->
    loadData fuel node location name
    = Some (Returns (loaded node name o, (name, type_of o) :: preorder o)).
Proof.
  induction fuel as [|fuel IH]; intros node location name o Hfind Hname Hwf Hdepth.
  - pose proof (depth_pos o). lia.
  - cbn [loadData].
    apply String.eqb_neq in Hname. rewrite Hname. cbn [negb].
    unfold childObjType, openGroup, HDF5Data_new, openDataSet. rewrite Hfind.
    destruct o as [links|class dims contents|].
    + destruct (well_formed_group links Hwf) as [Hnd Hlinks].
      cbn [lift Lbind visit]. unfold listObjects. cbv zeta.
      rewrite (for_each_runs links _
                 (fun n c node => <[n := Map (loaded ∅ n c)]> node)).
      * cbn [type_of app]. now rewrite preorder_group, loaded_group.
      * intros n c s Hin. destruct (Hlinks n c Hin) as [Hn Hc].
        rewrite (IH ∅ links n c); auto.
        -- cbn [Lbind Lret]. now rewrite insert_insert_eq, app_nil_r.
        -- now apply find_link_In.
        -- pose proof (depth_link links n c Hin). lia.
    + cbn [well_formed] in Hwf. cbn [lift Lbind visit type_of preorder loaded].
      destruct (getDataProperties class) as [[[mem size] nm]| |]; try discriminate.
      apply negb_true_iff in Hwf. rewrite Hwf. reflexivity.
    + reflexivity.
Qed.

Lemma HDF5File_runs (file_ : Location) :
  well_formed (H5Group file_) = true ->
  HDF5File file_ = Some (Returns (depth_first_tree file_, preorder (H5Group file_))).
Proof.
  intros Hwf. destruct (well_formed_group file_ Hwf) as [Hnd Hlinks].
  unfold HDF5File, listObjects, depth_first_tree. rewrite preorder_group.
  apply (for_each_runs file_ _ (fun n c data_ => loaded data_ n c)).
  intros n c s Hin. destruct (Hlinks n c Hin) as [Hn Hc].
  apply loadData_runs; auto.
  - now apply find_link_In.
  - pose proof (depth_link file_ n c Hin). lia.
Qed.

(** C7.  For a container as the library hands it out, the constructor
    returns the tree of the depth-first walk of the container, after one
    call of [loadData] for each object of the container, in depth-first
    order (each group before its members, members in index order).  Over
    the life of the object, construction followed by any sequence of calls
    of [getDims], [getData] and [getStatus] on datasets of the tree, these
    are the only calls of [loadData], and the tree at the end is the tree
    that the constructor built: the methods leave it as it is, and each of
    them answers after any such sequence as it answers right after
    construction. *)
Theorem tree_built_once_depth_first (file_ : Location) :
  well_formed (H5Group file_) = true ->
  HDF5File file_ = Some (Returns (depth_first_tree file_, preorder (H5Group file_)))
  /\ length (preorder (H5Group file_)) = members (H5Group file_)
  /\ forall qs,
       HDF5File_then file_ qs
       = Some (Returns (depth_first_tree file_, preorder (H5Group file_)))
       /\ queries qs (depth_first_tree file_) = depth_first_tree file_
       /\ forall q, fst (query q (queries qs (depth_first_tree file_)))
                    = fst (query q (depth_first_tree file_)).
Proof.
  intros Hwf. pose proof (HDF5File_runs file_ Hwf) as Hload.
  split; [exact Hload|]. split.
  { now apply (preorder_members_bounded (depth (H5Group file_))). }
  intros qs. split; [|split].
  - unfold HDF5File_then. rewrite Hload. cbn [Lbind Lret].
    now rewrite queries_unchanged, app_nil_r.
  - apply queries_unchanged.
  - intros q. now rewrite queries_unchanged.
Qed.

(** *** Properties of the rest of the planning stack *)

Lemma prefix_app (p s : string) :
  String.prefix p s = true <-> exists b, s = (p ++ b)%string.
Proof.
  revert s. induction p as [|c p IH]; intros s.
  - destruct s; cbn; split; eauto.
  - destruct s as [|c' s]; cbn.
    + split; [discriminate|]. intros [b Hb]. discriminate Hb.
    + destruct (Ascii.ascii_dec c c') as [->|Hne].
      * rewrite IH. split; intros [b Hb]; exists b; [now rewrite Hb|].
        now injection Hb.
      * split; [discriminate|]. intros [b Hb]. injection Hb as -> _. now destruct Hne.
Qed.

Lemma occurs_cons (str : string) (c : Ascii.ascii) (s : string) :
  occurs str (String c s) <-> String.prefix str (String c s) = true \/ occurs str s.
Proof.
  split.
  - intros ([|c' a] & b & Hs).
    + left. apply prefix_app. now exists b.
    + right. cbn in Hs. injection Hs as _ ->. now exists a, b.
  - intros [Hp | (a & b & ->)].
    + apply prefix_app in Hp as [b Hb]. exists ""%string, b. exact Hb.
    + now exists (String c a), b.
Qed.

Lemma string_find_occurs (str s : string) :
  (exists i, string_find str s = Some i) <-> occurs str s.
Proof.
  induction s as [|c s IH].
  - cbn [string_find]. destruct (String.prefix str "") eqn:Hp.
    + split; [|eauto]. intros _. apply prefix_app in Hp as [b Hb].
      now exists ""%string, b.
    + split; [intros [i Hi]; discriminate Hi|].
      intros ([|c a] & b & Hs); [|discriminate Hs].
      assert (String.prefix str "" = true) by (apply prefix_app; now exists b).
      congruence.
  - rewrite occurs_cons. cbn [string_find].
    destruct (String.prefix str (String c s)) eqn:Hp.
    + split; eauto.
    + rewrite <- IH. split.
      * intros [i Hi]. right. destruct (string_find str s); [eauto|discriminate Hi].
      * intros [Hf | [i Hi]]; [discriminate Hf|]. rewrite Hi. cbn. eauto.
Qed.

Lemma is_default_config_occurs (s : string) :
  is_default_config s = true <-> occurs DEFAULT_CONFIG s.
Proof.
  rewrite <- string_find_occurs. unfold is_default_config.
  destruct (string_find DEFAULT_CONFIG s); split; eauto; try discriminate.
  intros [i Hi]. discriminate Hi.
Qed.

Lemma find_first {A} (f : A -> bool) (l : list A) :
  match List.find f l with
  | Some a => exists before after,
      l = before ++ a :: after /\ f a = true /\ Forall (fun b => f b = false) before
  | None => Forall (fun b => f b = false) l
  end.
Proof.
  induction l as [|a l IH]; cbn; [constructor|].
  destruct (f a) eqn:Ha.
  - exists [], l. repeat split; [exact Ha|constructor].
  - destruct (List.find f l) as [b|].
    + destruct IH as (before & after & -> & Hb & Hbefore).
      exists (a :: before), after. repeat split; [exact Hb|now constructor].
    + now constructor.
Qed.

(** X1.  A builder starts with the group it is given, the workspace from
    -1 to 1 on every axis, five seconds of planning time and no goal; its
    planner is the first of the planner's configurations in which the text
    RRTConnect occurs, and it has no planner (the empty id) when the text
    occurs in none. *)
Theorem builder_starts_with_first_RRTConnect (configs : list string) (group : string) :
  let r := MotionRequestBuilder_new configs group in
  group_name r = group
  /\ allowed_planning_time r = 5.0%float
  /\ workspace_parameters r
     = {| min_corner := {| x := (-1)%float; y := (-1)%float; z := (-1)%float |};
          max_corner := {| x := 1%float; y := 1%float; z := 1%float |} |}
  /\ goal_constraints r = []
  /\ ((exists before after,
         configs = before ++ planner_id r :: after
         /\ occurs "RRTConnect" (planner_id r)
         /\ Forall (fun c => ~ occurs "RRTConnect" c) before)
      \/ (planner_id r = ""%string /\ Forall (fun c => ~ occurs "RRTConnect" c) configs)).
Proof.
  cbv zeta. unfold MotionRequestBuilder_new.
  assert (Hno : forall l, Forall (fun b => is_default_config b = false) l ->
                          Forall (fun c => ~ occurs "RRTConnect" c) l).
  { intros l Hl. induction Hl as [|c l Hc _ IH]; constructor; [|exact IH].
    intros Hocc. apply is_default_config_occurs in Hocc. congruence. }
  pose proof (find_first is_default_config configs) as Hfind.
  destruct (List.find is_default_config configs) as [c|]; cbn.
  - repeat split. left. destruct Hfind as (before & after & -> & Hc & Hbefore).
    exists before, after. repeat split; [|now apply Hno].
    now apply is_default_config_occurs.
  - repeat split. right. split; [reflexivity|now apply Hno].
Qed.

(** X2.  Of the goal setters called on a builder the last one decides the
    goal: after any calls, then a goal setter, then calls that set no goal,
    the goal constraints are the ones that this setter alone would leave,
    whatever was called or held before. *)
Theorem last_goal_setter_decides
    (before after : list BuilderCall) (c : BuilderCall) (r r' : MotionPlanRequest) :
  is_goal_setter c = true ->
  existsb is_goal_setter after = false ->
  goal_constraints (builder_calls (before ++ c :: after) r)
  = goal_constraints (builder_call r' c).
Proof.
  intros Hc Hafter.
  rewrite builder_calls_app.
  change (builder_calls (c :: after) ?x) with (builder_calls after (builder_call x c)).
  rewrite (builder_calls_keep_goal _ _ Hafter).
  destruct c; try discriminate Hc; reflexivity.
Qed.

(** X3.  The builder's setters are independent of one another: no sequence
    of calls changes the group, the planner id or the planning time; the
    goal constraints change only through a goal setter, the start state only
    through [setStartConfiguration], the workspace only through
    [setWorkspaceBounds]. *)
Theorem builder_setters_independent (cs : list BuilderCall) (r : MotionPlanRequest) :
  group_name (builder_calls cs r) = group_name r
  /\ planner_id (builder_calls cs r) = planner_id r
  /\ allowed_planning_time (builder_calls cs r) = allowed_planning_time r
  /\ (existsb is_goal_setter cs = false ->
      goal_constraints (builder_calls cs r) = goal_constraints r)
  /\ (existsb is_start_setter cs = false ->
      start_state (builder_calls cs r) = start_state r)
  /\ (existsb is_workspace_setter cs = false ->
      workspace_parameters (builder_calls cs r) = workspace_parameters r).
Proof.
  induction cs as [|c cs IH] using rev_ind; [now repeat split|].
  destruct IH as (Hg & Hp & Ht & Hgoal & Hstart & Hws).
  rewrite builder_calls_snoc.
  refine (conj _ (conj _ (conj _ (conj _ (conj _ _))))).
  - rewrite <- Hg. now destruct c.
  - rewrite <- Hp. now destruct c.
  - rewrite <- Ht. now destruct c.
  - rewrite <- builder_calls_snoc. apply builder_calls_keep_goal.
  - rewrite existsb_app. intros Hnone. apply orb_false_iff in Hnone as [Hcs Hc].
    rewrite <- (Hstart Hcs). cbn in Hc. now destruct c.
  - rewrite existsb_app. intros Hnone. apply orb_false_iff in Hnone as [Hcs Hc].
    rewrite <- (Hws Hcs). cbn in Hc. now destruct c.
Qed.

Lemma string_app_assoc (a b c : string) : ((a ++ b) ++ c = a ++ b ++ c)%string.
Proof.
  induction a as [|x a IH]; [reflexivity|].
  change (String x ((a ++ b) ++ c) = String x (a ++ b ++ c))%string. now rewrite IH.
Qed.

Lemma string_app_nil_r (a : string) : (a ++ "" = a)%string.
Proof.
  induction a as [|x a IH]; [reflexivity|].
  change (String x (a ++ "") = String x a)%string. now rewrite IH.
Qed.

Lemma fold_left_push_back {A} (keys configs : list A) :
  fold_left push_back keys configs = configs ++ keys.
Proof.
  revert configs. induction keys as [|k keys IH]; intros configs; cbn.
  - now rewrite app_nil_r.
  - rewrite IH. unfold push_back. now rewrite <- app_assoc.
Qed.

Lemma join_adapters_from (adapters rest done : list string) (ss : string) :
  adapters = done ++ rest ->
  (Z.of_nat (length adapters) < 2 ^ 64)%Z ->
  fold_left (write_adapter adapters) (seq (length done) (length rest)) ss
  = (ss ++ String.concat " " rest)%string.
Proof.
  intros Hsplit Hsize. revert done ss Hsplit.
  induction rest as [|a rest IH]; intros done ss Hsplit.
  - cbn. now rewrite string_app_nil_r.
  - cbn [length seq fold_left]. unfold write_adapter at 2.
    assert (Hnth : nth (length done) adapters ""%string = a).
    { rewrite Hsplit. rewrite app_nth2 by lia. now rewrite Nat.sub_diag. }
    assert (Hlen : length adapters = length done + S (length rest)).
    { rewrite Hsplit, length_app. reflexivity. }
    cbv zeta. rewrite Hnth. unfold to_unsigned.
    rewrite Z.mod_small by lia.
    assert (Hnext : S (length done) = length (done ++ [a])).
    { rewrite length_app. cbn. lia. }
    rewrite Hnext, IH by (rewrite Hsplit, <- app_assoc; reflexivity).
    destruct (Z.ltb_spec (Z.of_nat (length done)) (Z.of_nat (length adapters) - 1)) as [Hlt|Hge].
    + destruct rest as [|b rest]; [cbn in Hlen; lia|].
      cbn [String.concat]. now rewrite !string_app_assoc.
    + destruct rest as [|b rest]; [|cbn in Hlen; lia].
      cbn [String.concat]. now rewrite string_app_nil_r.
Qed.

Lemma join_adapters_concat (adapters : list string) :
  (Z.of_nat (length adapters) < 2 ^ 64)%Z ->
  join_adapters adapters = String.concat " " adapters.
Proof.
  intros Hsize. unfold join_adapters.
  exact (join_adapters_from adapters adapters [] "" eq_refl Hsize).
Qed.

Lemma loadOMPLConfig_refuses (handler : Handler) (config_file : string) (configs : list string) :
  config_file = ""%string \/ fst (loadFileToYAML config_file) = false ->
  loadOMPLConfig handler config_file configs = (false, handler, configs).
Proof.
  unfold loadOMPLConfig. intros [-> | Hload]; [reflexivity|].
  destruct (String.eqb config_file ""); [reflexivity|]. now rewrite Hload.
Qed.

Lemma loadOMPLConfig_loads (handler : Handler) (config_file : string) (configs : list string)
    (node : YAML) :
  config_file <> ""%string ->
  loadFileToYAML config_file = (true, node) ->
  loadOMPLConfig handler config_file configs
  = (true, handler ++ [loadYAMLtoROS node], configs ++ default [] (planner_configs node)).
Proof.
  unfold loadOMPLConfig. intros Hname Hload.
  apply String.eqb_neq in Hname. rewrite Hname, Hload. cbn [fst snd negb].
  unfold push_back at 1.
  destruct (planner_configs node) as [keys|]; cbn [default].
  - now rewrite fold_left_push_back.
  - now rewrite app_nil_r.
Qed.

(** X4.  Without a configuration file, or with one that cannot be read as
    YAML, [initialize] of either planner returns false and leaves the
    planner as it was: no parameter is written, no configuration is listed,
    no pipeline is made. *)
Theorem initialize_refuses_without_config
    (config_file : string) (settings : Settings) (plugin : string) (adapters : list string)
    (this : PlannerMembers) :
  config_file = ""%string \/ fst (loadFileToYAML config_file) = false ->
  OMPLPipelinePlanner_initialize config_file settings plugin adapters this = (false, this)
  /\ OMPLInterfacePlanner_initialize config_file settings this = (false, this).
Proof.
  intros Hno. unfold OMPLPipelinePlanner_initialize, OMPLInterfacePlanner_initialize.
  rewrite (loadOMPLConfig_refuses _ _ _ Hno). cbn. now destruct this.
Qed.

(** X5.  When the configuration file loads, [initialize] of the pipeline
    planner returns true, having passed the YAML to the handler and written
    the plugin, then the adapters as one string in which single spaces
    separate them (none after the last), then the eleven settings, each
    under its name after ompl/, in the order of [Settings::setParam]; these
    fourteen calls follow the calls made before and nothing else is called;
    the pipeline is made from the handler in that state. *)
Theorem initialize_writes_adapters_joined
    (config_file : string) (settings : Settings) (plugin : string) (adapters : list string)
    (this : PlannerMembers) (node : YAML) :
  config_file <> ""%string ->
  loadFileToYAML config_file = (true, node) ->
  (Z.of_nat (length adapters) < 2 ^ 64)%Z ->
  let after := snd (OMPLPipelinePlanner_initialize config_file settings plugin adapters this) in
  fst (OMPLPipelinePlanner_initialize config_file settings plugin adapters this) = true
  /\ handler_ after
     = handler_ this
       ++ [loadYAMLtoROS node;
           setParam "planning_plugin" (string_value plugin);
           setParam "request_adapters" (string_value (String.concat " " adapters));
           setParam "ompl/max_goal_samples" (max_goal_samples settings);
           setParam "ompl/max_goal_sampling_attempts" (max_goal_sampling_attempts settings);
           setParam "ompl/max_planning_threads" (max_planning_threads settings);
           setParam "ompl/max_solution_segment_length" (max_solution_segment_length settings);
           setParam "ompl/max_state_sampling_attempts" (max_state_sampling_attempts settings);
           setParam "ompl/minimum_waypoint_count" (minimum_waypoint_count settings);
           setParam "ompl/simplify_solutions" (simplify_solutions settings);
           setParam "ompl/use_constraints_approximations" (use_constraints_approximations settings);
           setParam "ompl/display_random_valid_states" (display_random_valid_states settings);
           setParam "ompl/link_for_exploration_tree" (link_for_exploration_tree settings);
           setParam "ompl/maximum_waypoint_distance" (maximum_waypoint_distance settings)]
  /\ planner_pipeline_ after = Some (newPlanningPipeline (handler_ after)).
Proof.
  intros Hname Hload Hsize. cbv zeta. unfold OMPLPipelinePlanner_initialize.
  rewrite (loadOMPLConfig_loads _ _ _ node Hname Hload). cbn [negb fst snd handler_ planner_pipeline_].
  rewrite (join_adapters_concat _ Hsize). unfold Settings_setParam, push_back.
  rewrite <- !app_assoc. now repeat split.
Qed.

(** X6.  Every successful [initialize], of either planner, appends the keys
    of the file's planner_configs node, in the file's order, to the
    configurations the planner already lists (and appends nothing when the
    file has no such node); a second [initialize] from the same file
    therefore lists every configuration twice. *)
Theorem initialize_appends_configs
    (config_file : string) (settings : Settings) (plugin : string) (adapters : list string)
    (this : PlannerMembers) (node : YAML) :
  config_file <> ""%string ->
  loadFileToYAML config_file = (true, node) ->
  let keys := default [] (planner_configs node) in
  let once := snd (OMPLPipelinePlanner_initialize config_file settings plugin adapters this) in
  let twice := snd (OMPLPipelinePlanner_initialize config_file settings plugin adapters once) in
  getPlannerConfigs once = getPlannerConfigs this ++ keys
  /\ getPlannerConfigs twice = getPlannerConfigs this ++ keys ++ keys
  /\ getPlannerConfigs (snd (OMPLInterfacePlanner_initialize config_file settings this))
     = getPlannerConfigs this ++ keys.
Proof.
  intros Hname Hload. cbv zeta.
  unfold OMPLPipelinePlanner_initialize, OMPLInterfacePlanner_initialize, getPlannerConfigs.
  rewrite !(loadOMPLConfig_loads _ _ _ node Hname Hload). cbn [negb fst snd configs_].
  rewrite ?(loadOMPLConfig_loads _ _ _ node Hname Hload). cbn [negb fst snd configs_].
  rewrite <- app_assoc. now repeat split.
Qed.

(** X7.  A builder made for a planner that was initialized from a file in
    which some planner configuration has RRTConnect in its name asks for
    such a configuration. *)
Theorem builder_after_initialize_asks_RRTConnect
    (config_file : string) (settings : Settings) (plugin : string) (adapters : list string)
    (this : PlannerMembers) (node : YAML) (keys : list string) (key group : string) :
  config_file <> ""%string ->
  loadFileToYAML config_file = (true, node) ->
  planner_configs node = Some keys ->
  In key keys ->
  occurs "RRTConnect" key ->
  let after := snd (OMPLPipelinePlanner_initialize config_file settings plugin adapters this) in
  occurs "RRTConnect" (planner_id (MotionRequestBuilder_new (getPlannerConfigs after) group)).
Proof.
  intros Hname Hload Hkeys Hin Hocc. cbv zeta.
  unfold OMPLPipelinePlanner_initialize, getPlannerConfigs.
  rewrite (loadOMPLConfig_loads _ _ _ node Hname Hload). cbn [negb fst snd configs_].
  rewrite Hkeys. unfold MotionRequestBuilder_new.
  match goal with |- context [List.find is_default_config ?l] =>
    pose proof (find_first is_default_config l) as Hfind;
    destruct (List.find is_default_config l) as [c|] end.
  - destruct Hfind as (_ & _ & _ & Hc & _).
    exact (proj1 (is_default_config_occurs c) Hc).
  - exfalso. rewrite Forall_forall in Hfind.
    assert (Hkey : is_default_config key = false).
    { apply Hfind. apply list_elem_of_In. apply in_or_app. right. exact Hin. }
    pose proof (proj2 (is_default_config_occurs key) Hocc). congruence.
Qed.

Lemma with_env_same (w : World) : with_env (env w) w = w.
Proof. now destruct w. Qed.

(** X8.  Neither planner changes the robot, the request, the scene or the
    pipeline: of the world only the state private to the libraries can
    differ after [plan].  [PipelinePlanner::plan] makes at most one call,
    [generatePlan]; [OMPLInterfacePlanner::plan] asks for a context and
    then either stops or clears the context and solves once, in that
    order. *)
Theorem planners_touch_env_only (sc : Scene) (rq : MotionPlanRequest) (w : World) :
  (exists e, world (PipelinePlanner_plan sc rq w) = with_env e w)
  /\ (exists e, world (OMPLInterfacePlanner_plan sc rq w) = with_env e w)
  /\ (trace (PipelinePlanner_plan sc rq w) = []
      \/ trace (PipelinePlanner_plan sc rq w) = [pipeline_generatePlan rq])
  /\ (trace (OMPLInterfacePlanner_plan sc rq w) = [interface_getPlanningContext rq]
      \/ trace (OMPLInterfacePlanner_plan sc rq w)
         = [interface_getPlanningContext rq; context_clear; context_solve]).
Proof.
  unfold PipelinePlanner_plan, OMPLInterfacePlanner_plan, bind, get, call, extern, ret.
  destruct (pipeline_ w) as [p|];
    [destruct (generatePlan p sc rq default_response (env w)) as [resp e]|];
    (destruct (getPlanningContext sc rq (env w)) as [[c|] e1];
     [destruct (Context_clear c (env (with_env e1 w))) as [[] e2];
      destruct (Context_solve c (with_error_code FAILURE default_response)
                  (env (with_env e2 (with_env e1 w)))) as [[ok resp'] e3]|]);
    cbn; repeat split; eauto; exists (env w); now rewrite with_env_same.
Qed.

Lemma PipelinePlanner_plan_requests (sc : Scene) (rq : MotionPlanRequest) (w : World) :
  planner_requests (trace (PipelinePlanner_plan sc rq w)) = [].
Proof.
  unfold PipelinePlanner_plan, bind, get, call, extern, ret.
  destruct (pipeline_ w) as [p|]; [|reflexivity].
  now destruct (generatePlan p sc rq default_response (env w)).
Qed.

Lemma planner_requests_app (t1 t2 : list Event) :
  planner_requests (t1 ++ t2) = planner_requests t1 ++ planner_requests t2.
Proof. apply omap_app. Qed.

(** X9.  The responses for the first goals of a list do not depend on the
    goals after them: the result for [gs] is the first [length gs] entries
    of the result for [gs ++ gs'], and the calls made for [gs] are the first
    calls made for [gs ++ gs']. *)
Theorem earlier_responses_do_not_depend_on_later_goals
    (gs gs' : list (list double)) (w : World) :
  result (plan_linearly gs w) = firstn (length gs) (result (plan_linearly (gs ++ gs') w))
  /\ exists t, trace (plan_linearly (gs ++ gs') w) = trace (plan_linearly gs w) ++ t.
Proof.
  rewrite !plan_linearly_run. cbn [result trace fst snd].
  rewrite plan_linearly_locals_app, bind_run. cbn [result trace fst snd].
  split; [|eauto].
  rewrite plan_linearly_locals_run.
  set (ns0 := tmp ++ position (joint_state (start_state (request_ w)))).
  destruct (plan_linearly_loop_responses gs [] ns0 w) as (new & Hnew & Hlen & _).
  destruct (result (plan_linearly_loop gs ([], ns0) w)) as [rs ns] eqn:Eb.
  cbn [fst app] in Hnew. subst rs.
  match goal with |- context [plan_linearly_loop gs' (new, ns) ?w'] =>
    destruct (plan_linearly_loop_responses gs' new ns w') as (new' & Hnew' & _) end.
  rewrite Hnew', <- Hlen. rewrite firstn_app, Nat.sub_diag, firstn_all. cbn.
  now rewrite app_nil_r.
Qed.

Lemma plan_linearly_loop_requests (R : MotionPlanRequest) (goals : list (list double)) :
  (forall g ns w, request_ (constraint_helper g ns w) = request_ w) ->
  (forall g w, request_ (scene_graph_helper g w) = request_ w) ->
  forall locals w,
    with_start_state (start_state R) (request_ w) = R ->
    Forall (fun rq => with_start_state (start_state R) rq = R)
      (planner_requests (trace (plan_linearly_loop goals locals w))).
Proof.
  intros Hc Hs. induction goals as [|g goals IH]; intros [rs ns] w Hw; [constructor|].
  cbn [plan_linearly_loop]. rewrite bind_run, plan_linearly_body_run.
  cbn [result world trace fst snd]. rewrite plan_goal_run. cbn [result world trace fst snd].
  destruct (PipelinePlanner_plan_frame (scene (helped g ns w))
              (getRequest (request_ (helped g ns w))) (helped g ns w)) as (_ & Hrq & _ & _).
  assert (Hhelped : request_ (helped g ns w) = request_ w).
  { unfold helped. now rewrite Hs, Hc. }
  rewrite !planner_requests_app.
  assert (Hnone : planner_requests (trace (planned g ns w)) = []).
  { unfold planned. apply PipelinePlanner_plan_requests. }
  rewrite Hnone. cbn [planner_requests omap planner_request_of app].
  constructor.
  - unfold getRequest. now rewrite Hhelped.
  - apply IH. rewrite reseed_run. cbn [world fst snd request_ with_request with_robot].
    assert (Hplanned : request_ (world (planned g ns w)) = request_ w).
    { unfold planned. now rewrite Hrq. }
    rewrite Hplanned.
    transitivity (with_start_state (start_state R) (request_ w)); [reflexivity|exact Hw].
Qed.

(** X10.  [plan_linearly] itself never writes a goal into the request: when
    the two helpers leave the request alone, the first planning call
    receives the request as it was on entry, and every planning call
    receives it with nothing but the start state replaced, whatever the
    goals are. *)
Theorem goals_reach_the_planner_only_through_helpers
    (g : list double) (goals : list (list double)) (w : World) :
  (forall g ns w, request_ (constraint_helper g ns w) = request_ w) ->
  (forall g w, request_ (scene_graph_helper g w) = request_ w) ->
  nth_error (planner_requests (trace (plan_linearly (g :: goals) w))) 0 = Some (request_ w)
  /\ Forall (fun rq => with_start_state (start_state (request_ w)) rq = request_ w)
       (planner_requests (trace (plan_linearly (g :: goals) w))).
Proof.
  intros Hc Hs. rewrite plan_linearly_run, plan_linearly_locals_run. cbn [trace snd].
  split.
  - cbn [plan_linearly_loop]. rewrite bind_run, plan_linearly_body_run.
    cbn [result world trace fst snd]. rewrite plan_goal_run. cbn [result world trace fst snd].
    cbn [app planner_requests omap planner_request_of nth_error].
    unfold helped, getRequest. now rewrite Hs, Hc.
  - apply plan_linearly_loop_requests; auto. now destruct (request_ w).
Qed.

Lemma plan_linearly_loop_robot {laws : RobotLaws Robot} (goals : list (list double)) :
  (forall g ns w, robot (constraint_helper g ns w) = robot w) ->
  (forall g w, robot (scene_graph_helper g w) = robot w) ->
  forall locals w, robot (world (plan_linearly_loop goals locals w)) = robot w.
Proof.
  intros Hc Hs. induction goals as [|g goals IH]; intros [rs ns] w; [reflexivity|].
  cbn [plan_linearly_loop]. rewrite bind_run, plan_linearly_body_run.
  cbn [result world trace fst snd]. rewrite IH, reseed_run. cbn [world fst snd].
  rewrite plan_goal_run. cbn [result world fst snd robot with_request with_robot].
  destruct (setStateNamed_setState
              (getFinalJointPositions (result (planned g ns w)))
              (robot (world (planned g ns w)))) as [v ->].
  rewrite setState_restores.
  destruct (PipelinePlanner_plan_frame (scene (helped g ns w))
              (getRequest (request_ (helped g ns w))) (helped g ns w)) as (Hr & _).
  unfold planned. rewrite Hr. unfold helped. now rewrite Hs, Hc.
Qed.

(** X11.  With helpers that leave the robot alone, the robot after
    [plan_linearly] is the robot before it, for any list of goals: every
    state set on it to read a joint vector back is undone. *)
Theorem plan_linearly_leaves_robot {laws : RobotLaws Robot}
    (goals : list (list double)) (w : World) :
  (forall g ns w, robot (constraint_helper g ns w) = robot w) ->
  (forall g w, robot (scene_graph_helper g w) = robot w) ->
  robot (world (plan_linearly goals w)) = robot w.
Proof.
  intros Hc Hs. rewrite plan_linearly_run, plan_linearly_locals_run. cbn [world fst snd].
  now apply plan_linearly_loop_robot.
Qed.



(** *** More properties of the loader *)

Lemma to_signed_32_mod (z : Z) : (to_signed 32 z mod 2 ^ 32 = z mod 2 ^ 32)%Z.
Proof.
  unfold to_signed. rewrite Zminus_mod_idemp_l. f_equal. lia.
Qed.

Lemma accumulate_step_mod (acc : Z) (d : N) :
  (to_signed 32 (to_unsigned 64 (to_unsigned 64 acc * Z.of_N d)) mod 2 ^ 32
   = (acc * Z.of_N d) mod 2 ^ 32)%Z.
Proof.
  rewrite to_signed_32_mod. unfold to_unsigned.
  assert (Hdiv : (2 ^ 32 | 2 ^ 64)%Z) by (exists (2 ^ 32)%Z; reflexivity).
  rewrite (Z.mod_mod_divide _ _ _ Hdiv).
  rewrite Z.mul_mod by lia. rewrite (Z.mod_mod_divide _ _ _ Hdiv).
  now rewrite <- Z.mul_mod by lia.
Qed.

Lemma accumulate_from_mod (dims : list N) (acc p : Z) :
  (acc mod 2 ^ 32 = p mod 2 ^ 32)%Z ->
  (fold_left (fun acc d => to_signed 32 (to_unsigned 64 (to_unsigned 64 acc * Z.of_N d)))
     dims acc mod 2 ^ 32
   = fold_left (fun acc d => acc * Z.of_N d) dims p mod 2 ^ 32)%Z.
Proof.
  revert acc p. induction dims as [|d dims IH]; intros acc p Hacc; [exact Hacc|].
  cbn [fold_left]. apply IH. rewrite accumulate_step_mod.
  rewrite (Z.mul_mod acc) by lia. rewrite Hacc. now rewrite <- Z.mul_mod by lia.
Qed.

(** X13.  The buffer that the constructor of [HDF5Data] allocates has the
    size of the dataset in bytes modulo 2^32, for every element size and
    every shape: the element count is accumulated in an [int] and the
    product with the element size is taken in [unsigned int]. *)
Theorem buffer_size_wraps (size : Z) (dims : list N) :
  buffer_size size dims = (read_size size dims mod 2 ^ 32)%Z.
Proof.
  unfold buffer_size, read_size, to_unsigned.
  rewrite Zmult_mod_idemp_r.
  rewrite (Z.mul_mod size (accumulate dims)) by lia.
  rewrite (Z.mul_mod size (fold_left _ dims 1%Z)) by lia.
  unfold accumulate. now rewrite (accumulate_from_mod dims 1 1 eq_refl).
Qed.

Lemma buffer_overrun_iff (size : Z) (dims : list N) :
  (buffer_size size dims <? read_size size dims)%Z = negb (read_size size dims <? 2 ^ 32)%Z.
Proof.
  unfold buffer_size, read_size, to_unsigned.
  rewrite Zmult_mod_idemp_r.
  rewrite (Z.mul_mod size (accumulate dims)) by lia.
  unfold accumulate. rewrite (accumulate_from_mod dims 1 1 eq_refl).
  rewrite <- Z.mul_mod by lia.
  set (r := (size * fold_left (fun acc d => acc * Z.of_N d) dims 1)%Z).
  pose proof (Z.mod_pos_bound r (2 ^ 32) ltac:(lia)) as Hbound.
  destruct (Z.ltb_spec r (2 ^ 32)) as [Hsmall|Hbig]; cbn [negb].
  - apply Z.ltb_ge. destruct (Z.le_gt_cases 0 r) as [Hpos|Hneg].
    + rewrite Z.mod_small by lia. lia.
    + lia.
  - apply Z.ltb_lt. lia.
Qed.

Lemma HDF5Data_new_returns (location : Location) (name : string) (d : HDF5Data) :
  HDF5Data_new location name = Returns d
  <-> exists class dims contents mem_type size type_name,
        find_link location name = Some (H5Dataset class dims contents)
        /\ getDataProperties class = Returns (mem_type, size, type_name)
        /\ (read_size size dims < 2 ^ 32)%Z
        /\ d = {| type_ := class; rank_ := length dims; dims_ := dims;
                  data_ := (mem_type, contents) |}.
Proof.
  unfold HDF5Data_new, openDataSet.
  destruct (find_link location name) as [[links|class dims contents|]|].
  2: { destruct (getDataProperties class) as [[[mem size] nm]| |] eqn:Hprops.
       - rewrite buffer_overrun_iff.
         destruct (Z.ltb_spec (read_size size dims) (2 ^ 32)) as [Hsmall|Hbig]; cbn [negb].
         + split.
           * intros [= <-]. now exists class, dims, contents, mem, size, nm.
           * intros (c & ds & cs & m & s & n & [= <- <- <-] & Hp & _ & ->).
             rewrite Hprops in Hp. now injection Hp as <- _ _.
         + split; [discriminate|].
           intros (c & ds & cs & m & s & n & [= <- <- <-] & Hp & Hlt & _).
           rewrite Hprops in Hp. injection Hp as _ <- _. lia.
       - split; [discriminate|].
         intros (c & ds & cs & m & s & n & [= <- <- <-] & Hp & _). congruence.
       - split; [discriminate|].
         intros (c & ds & cs & m & s & n & [= <- <- <-] & Hp & _). congruence. }
  all: split; [discriminate|]; intros (c & ds & cs & m & s & n & Hf & _); discriminate Hf.
Qed.

(** X14.  The constructor of [HDF5Data] returns exactly for a dataset of
    integer or floating-point class that holds less than 2^32 bytes; the
    object has the dataset's class, its number of dimensions as rank, its
    shape, and its contents read with the native type of the class.  It
    throws exactly when the name is not that of a dataset. *)
Theorem HDF5Data_new_returns_iff (location : Location) (name : string) :
  (forall d,
     HDF5Data_new location name = Returns d
     <-> exists class dims contents mem_type size type_name,
           find_link location name = Some (H5Dataset class dims contents)
           /\ getDataProperties class = Returns (mem_type, size, type_name)
           /\ (read_size size dims < 2 ^ 32)%Z
           /\ d = {| type_ := class; rank_ := length dims; dims_ := dims;
                     data_ := (mem_type, contents) |})
  /\ (HDF5Data_new location name = Throws
      <-> forall class dims contents,
            find_link location name <> Some (H5Dataset class dims contents)).
Proof.
  split; [apply HDF5Data_new_returns|].
  unfold HDF5Data_new, openDataSet.
  destruct (find_link location name) as [[links|class dims contents|]|];
    try (split; [discriminate | reflexivity || (intros _; reflexivity)]).
  split.
  - destruct class; cbn [getDataProperties]; try discriminate;
      match goal with |- context [(?a <? ?b)%Z] => destruct (a <? b)%Z end; discriminate.
  - intros Hno. now destruct (Hno class dims contents).
Qed.

Lemma Lbind_returns {A B} (m : L A) (f : A -> L B) (b : B) (t : list Visit) :
  Lbind m f = Some (Returns (b, t)) ->
  exists a t1 t2, m = Some (Returns (a, t1)) /\ f a = Some (Returns (b, t2)) /\ t = t1 ++ t2.
Proof.
  unfold Lbind. destruct m as [[[a t1]| |]|]; try discriminate.
  destruct (f a) as [[[b' t2]| |]|] eqn:Hf; try discriminate.
  intros [= <- <-]. now exists a, t1, t2.
Qed.

Lemma for_each_invariant {S : Type} (I : S -> Prop) (names : list string)
    (body : string -> S -> L S) :
  (forall n s s1 t1, In n names -> body n s = Some (Returns (s1, t1)) -> I s -> I s1) ->
  forall s s' t, for_each names s body = Some (Returns (s', t)) -> I s -> I s'.
Proof.
  induction names as [|n names IH]; intros Hbody s s' t Hrun Hs.
  - cbn in Hrun. now injection Hrun as <- _.
  - cbn [for_each] in Hrun. apply Lbind_returns in Hrun as (s1 & t1 & t2 & H1 & H2 & _).
    apply (IH (fun n' s0 s2 t0 Hin => Hbody n' s0 s2 t0 (or_intror Hin)) s1 s' t2 H2).
    apply (Hbody n s s1 t1); [now left|exact H1|exact Hs].
Qed.

Lemma datasets_of_link (links : Location) (n : string) (o : H5Object) x :
  In (n, o) links -> In x (datasets_of o) -> In x (datasets_of (H5Group links)).
Proof.
  cbn [datasets_of]. induction links as [|[n' c'] l IH]; intros Hin Hx; [destruct Hin|].
  apply in_or_app. destruct Hin as [E|Hin].
  - injection E as -> ->. now left.
  - right. now apply IH.
Qed.

Lemma getDataProperties_class (class : H5T_class_t) p :
  getDataProperties class = Returns p -> class = H5T_INTEGER \/ class = H5T_FLOAT.
Proof. destruct class; cbn; intros Hp; try discriminate; auto. Qed.

Lemma loadData_leaves (ds : list (H5T_class_t * list N * Contents)) (fuel : nat) :
  forall (node : gmap string Node) (location : Location) (name : string)
         (node' : gmap string Node) (t : list Visit),
    loadData fuel node location name = Some (Returns (node', t)) ->
    (forall x, In x (datasets_of (H5Group location)) -> In x ds) ->
    (forall key n, node !! key = Some n -> all_leaves (stands_for ds) n) ->
    forall key n, node' !! key = Some n -> all_leaves (stands_for ds) n.
Proof.
  induction fuel as [|fuel IH]; intros node location name node' t Hrun Hds Hnode;
    [discriminate Hrun|].
  cbn [loadData] in Hrun. unfold childObjType, openGroup in Hrun.
  destruct (find_link location name) as [o|] eqn:Hfind.
  2: { destruct (negb (String.eqb name "")); discriminate Hrun. }
  pose proof (find_link_Some _ _ _ Hfind) as Hin.
  destruct o as [links|class dims contents|].
  - assert (Hloop : exists t', for_each (listObjects links) node
                (fun obj node =>
                   Lbind (loadData fuel ∅ links obj)
                     (fun children => Lret (<[obj := Map children]> (<[obj := Map ∅]> node))))
              = Some (Returns (node', t'))).
    { destruct (negb (String.eqb name "")); cbn [lift Lret Lbind visit] in Hrun;
        cbv zeta in Hrun;
        destruct (for_each _ _ _) as [[[s t']| |]|]; try discriminate Hrun;
        injection Hrun as <- _; eauto. }
    destruct Hloop as [t' Hloop].
    refine (for_each_invariant
              (fun m => forall key n, m !! key = Some n -> all_leaves (stands_for ds) n)
              _ _ _ node node' t' Hloop Hnode).
    intros obj s s1 t1 _ Hbody Hs key n Hkey.
    apply Lbind_returns in Hbody as (children & t2 & t3 & Hchildren & Hret & _).
    injection Hret as <- _.
    destruct (decide (obj = key)) as [->|Hne].
    + rewrite lookup_insert_eq in Hkey. injection Hkey as <-.
      constructor. apply (IH ∅ links key children t2 Hchildren).
      * intros x Hx. apply Hds. now apply (datasets_of_link location name (H5Group links)).
      * intros k n' Hk. now rewrite lookup_empty in Hk.
    + rewrite !lookup_insert_ne in Hkey by exact Hne. now apply (Hs key).
  - destruct (negb (String.eqb name "")); cbn [lift Lret Lbind visit] in Hrun;
      [|discriminate Hrun].
    destruct (HDF5Data_new location name) as [d| |] eqn:Hnew; try discriminate Hrun.
    cbn in Hrun. injection Hrun as <- _.
    apply HDF5Data_new_returns in Hnew
      as (c & dm & cs & mem & size & nm & Hf & Hprops & _ & ->).
    rewrite Hfind in Hf. injection Hf as <- <- <-.
    intros key n Hkey. destruct (decide (name = key)) as [->|Hne].
    + rewrite lookup_insert_eq in Hkey. injection Hkey as <-.
      constructor. repeat split; cbn.
      * now apply (getDataProperties_class class (mem, size, nm)).
      * apply Hds. apply (datasets_of_link location key (H5Dataset class dims contents) _ Hin).
        now left.
    + rewrite lookup_insert_ne in Hkey by exact Hne. now apply (Hnode key).
  - destruct (negb (String.eqb name "")); cbn [lift Lret Lbind visit] in Hrun;
      [|discriminate Hrun].
    injection Hrun as <- _. exact Hnode.
Qed.

Lemma all_leaves_leaf_at (P : HDF5Data -> Prop) (path : list string) :
  forall n d, all_leaves P n -> leaf_at path n = Some d -> P d.
Proof.
  induction path as [|key path IH]; intros n d Hall Hleaf.
  - destruct Hall as [d' Hd|children Hc]; cbn in Hleaf; [|discriminate].
    now injection Hleaf as <-.
  - destruct Hall as [d' Hd|children Hc]; cbn in Hleaf; [discriminate|].
    destruct (children !! key) as [c|] eqn:Hkey; [|discriminate].
    exact (IH c d (Hc key c Hkey) Hleaf).
Qed.

(** X15.  Every dataset object in a tree that the constructor of
    [HDF5File] returns stands for a dataset of the file: it has that
    dataset's class, which is integer or floating point, its shape and its
    contents; [getDims] returns the whole shape and [getStatus] is defined
    on it. *)
Theorem leaves_are_datasets_of_the_file
    (file_ : Location) (data_ : gmap string Node) (t : list Visit)
    (path : list string) (d : HDF5Data) :
  HDF5File file_ = Some (Returns (data_, t)) ->
  leaf_at path (Map data_) = Some d ->
  stands_for (datasets_of (H5Group file_)) d
  /\ getDims d = dims_ d
  /\ exists status, getStatus d = Returns status.
Proof.
  intros Hload Hleaf.
  assert (Hall : all_leaves (stands_for (datasets_of (H5Group file_))) (Map data_)).
  { constructor. unfold HDF5File in Hload.
    refine (for_each_invariant
              (fun m => forall key n, m !! key = Some n ->
                                      all_leaves (stands_for (datasets_of (H5Group file_))) n)
              _ _ _ ∅ data_ t Hload _).
    - intros obj s s1 t1 _ Hbody Hs.
      apply (loadData_leaves _ _ _ _ _ _ _ Hbody); auto.
    - intros key n Hkey. now rewrite lookup_empty in Hkey. }
  pose proof (all_leaves_leaf_at _ _ _ _ Hall Hleaf) as Hd.
  split; [exact Hd|]. destruct Hd as (Hclass & Hrank & _). split.
  - unfold getDims. rewrite Hrank. apply firstn_all.
  - unfold getStatus. destruct Hclass as [-> | ->]; cbn; eauto.
Qed.

Lemma well_formed_split_bounded (n : nat) :
  forall o, depth o <= n ->
            well_formed o = names_well_formed o && datasets_loadable o.
Proof.
  induction n as [|n IH]; intros o Hdepth; [pose proof (depth_pos o); lia|].
  destruct o as [links|class dims contents|]; [| |reflexivity].
  - assert (Hlinks : forall m c, In (m, c) links ->
                       well_formed c = names_well_formed c && datasets_loadable c).
    { intros m c Hin. apply IH. pose proof (depth_link links m c Hin). lia. }
    cbn [well_formed names_well_formed datasets_loadable].
    destruct (bool_decide (NoDup (map fst links))); cbn [andb]; [|reflexivity].
    clear Hdepth. induction links as [|[m c] l IHl]; [reflexivity|].
    rewrite (Hlinks m c (or_introl eq_refl)).
    rewrite IHl by (intros m' c' Hin; apply (Hlinks m' c'); now right).
    destruct (negb (String.eqb m "")), (names_well_formed c), (datasets_loadable c);
      cbn [andb]; try reflexivity; now rewrite ?andb_false_r.
  - cbn [well_formed names_well_formed datasets_loadable andb].
    destruct (getDataProperties class) as [[[mem size] nm]| |]; try reflexivity.
    rewrite buffer_overrun_iff. now rewrite negb_involutive.
Qed.

Lemma well_formed_split (o : H5Object) :
  well_formed o = names_well_formed o && datasets_loadable o.
Proof. now apply (well_formed_split_bounded (depth o)). Qed.

Lemma names_well_formed_group (links : Location) :
  names_well_formed (H5Group links) = true ->
  NoDup (map fst links) /\ forall n c, In (n, c) links -> names_well_formed c = true.
Proof.
  cbn [names_well_formed]. intros Hwf. apply andb_true_iff in Hwf as [Hnd Hall].
  split; [now apply bool_decide_eq_true in Hnd|]. clear Hnd.
  induction links as [|[n' c'] l IH]; intros n c Hin; [destruct Hin|].
  apply andb_true_iff in Hall as [Hhead Hall].
  apply andb_true_iff in Hhead as [_ Hc].
  destruct Hin as [E|Hin]; [|exact (IH Hall n c Hin)].
  now injection E as -> ->.
Qed.

Lemma datasets_loadable_group (links : Location) :
  (forall n c, In (n, c) links -> datasets_loadable c = true) ->
  datasets_loadable (H5Group links) = true.
Proof.
  cbn [datasets_loadable]. induction links as [|[n c] l IH]; intros Hall; [reflexivity|].
  rewrite (Hall n c (or_introl eq_refl)). cbn [andb].
  apply IH. intros n' c' Hin. apply (Hall n' c'). now right.
Qed.

Lemma for_each_returns_each {S : Type} (names : list string) (body : string -> S -> L S) :
  forall s s' t,
    for_each names s body = Some (Returns (s', t)) ->
    forall n, In n names -> exists s0 s1 t1, body n s0 = Some (Returns (s1, t1)).
Proof.
  induction names as [|m names IH]; intros s s' t Hrun n Hin; [destruct Hin|].
  cbn [for_each] in Hrun. apply Lbind_returns in Hrun as (s1 & t1 & t2 & H1 & H2 & _).
  destruct Hin as [->|Hin]; [eauto|].
  exact (IH s1 s' t2 H2 n Hin).
Qed.

Lemma loadData_returns_loadable (fuel : nat) :
  forall (node : gmap string Node) (location : Location) (name : string) (o : H5Object)
         (node' : gmap string Node) (t : list Visit),
    loadData fuel node location name = Some (Returns (node', t)) ->
    find_link location name = Some o ->
    names_well_formed o = true ->
    datasets_loadable o = true.
Proof.
  induction fuel as [|fuel IH]; intros node location name o node' t Hrun Hfind Hnames;
    [discriminate Hrun|].
  cbn [loadData] in Hrun. unfold childObjType, openGroup in Hrun. rewrite Hfind in Hrun.
  destruct o as [links|class dims contents|]; [| |reflexivity].
  - assert (Hloop : exists t', for_each (listObjects links) node
                (fun obj node =>
                   Lbind (loadData fuel ∅ links obj)
                     (fun children => Lret (<[obj := Map children]> (<[obj := Map ∅]> node))))
              = Some (Returns (node', t'))).
    { destruct (negb (String.eqb name "")); cbn [lift Lret Lbind visit] in Hrun;
        cbv zeta in Hrun;
        destruct (for_each _ _ _) as [[[s t']| |]|]; try discriminate Hrun;
        injection Hrun as <- _; eauto. }
    destruct Hloop as [t' Hloop].
    destruct (names_well_formed_group links Hnames) as [Hnd Hmembers].
    apply datasets_loadable_group. intros n c Hin.
    destruct (for_each_returns_each _ _ _ _ _ Hloop n) as (s0 & s1 & t1 & Hbody).
    { unfold listObjects. change n with (fst (n, c)). now apply in_map. }
    apply Lbind_returns in Hbody as (children & t2 & _ & Hchildren & _).
    apply (IH ∅ links n c children t2 Hchildren); [now apply find_link_In|].
    now apply (Hmembers n c).
  - destruct (negb (String.eqb name "")); cbn [lift Lret Lbind visit] in Hrun;
      [|discriminate Hrun].
    destruct (HDF5Data_new location name) as [d| |] eqn:Hnew; try discriminate Hrun.
    apply HDF5Data_new_returns in Hnew
      as (c & dm & cs & mem & size & nm & Hf & Hprops & Hsmall & _).
    rewrite Hfind in Hf. injection Hf as <- <- <-.
    cbn [datasets_loadable]. rewrite Hprops. now apply Z.ltb_lt.
Qed.

(** X16.  For a file in whose groups the link names are distinct and not
    empty, the constructor of [HDF5File] returns a tree exactly when every
    dataset of the file, at any depth, is of integer or floating-point class
    and holds less than 2^32 bytes. *)
Theorem HDF5File_returns_iff (file_ : Location) :
  names_well_formed (H5Group file_) = true ->
  (exists data_ t, HDF5File file_ = Some (Returns (data_, t)))
  <-> datasets_loadable (H5Group file_) = true.
Proof.
  intros Hnames. split.
  - intros (data_ & t & Hload). unfold HDF5File in Hload.
    destruct (names_well_formed_group file_ Hnames) as [Hnd Hmembers].
    apply datasets_loadable_group. intros n c Hin.
    destruct (for_each_returns_each _ _ _ _ _ Hload n) as (s0 & s1 & t1 & Hbody).
    { unfold listObjects. change n with (fst (n, c)). now apply in_map. }
    apply (loadData_returns_loadable _ _ _ _ c _ _ Hbody); [now apply find_link_In|].
    now apply (Hmembers n c).
  - intros Hdata. destruct (HDF5File_returns file_) as [data_ Hload].
    + rewrite well_formed_split, Hnames, Hdata. reflexivity.
    + eauto.
Qed.

Lemma entered_insert (links : Location) (node : gmap string Node) (n : string) (v : Node) :
  ~ In n (map fst links) ->
  entered links (<[n := v]> node) = <[n := v]> (entered links node).
Proof.
  revert node. induction links as [|[n' c'] l IH]; intros node Hfresh; [reflexivity|].
  assert (Hl : ~ In n (map fst l)) by (intros Hin; apply Hfresh; now right).
  assert (Hn : n' <> n) by (intros ->; apply Hfresh; now left).
  unfold entered in *. cbn [fold_left fst snd].
  destruct (mirror c') as [v'|].
  - rewrite <- (IH _ Hl). f_equal. now apply insert_insert_ne.
  - exact (IH _ Hl).
Qed.

Lemma mirror_entered (links : Location) :
  NoDup (map fst links) -> mirror (H5Group links) = Some (Map (entered links ∅)).
Proof.
  induction links as [|[n c] l IH]; intros Hnd; [reflexivity|].
  cbn [map fst] in Hnd. apply NoDup_cons in Hnd as [Hfresh Hnd].
  specialize (IH Hnd). cbn [mirror] in *. injection IH as IH.
  rewrite IH. do 2 f_equal.
  change (entered ((n, c) :: l) ∅)
    with (entered l (match mirror c with Some v => <[n := v]> ∅ | None => ∅ end)).
  destruct (mirror c) as [v|]; [|reflexivity].
  symmetry. apply entered_insert.
  intros Hin. apply Hfresh. now apply list_elem_of_In.
Qed.

Lemma loadData_flat (fuel : nat) (node : gmap string Node) (location : Location)
    (name : string) (o : H5Object) :
  find_link location name = Some o ->
  name <> ""%string ->
  well_formed o = true ->
  is_group o = false ->
  exists t,
    loadData (S fuel) node location name
    = Some (Returns (match mirror o with Some v => <[name := v]> node | None => node end, t)).
Proof.
  intros Hfind Hname Hwf Hflat. cbn [loadData].
  apply String.eqb_neq in Hname. rewrite Hname. cbn [negb].
  unfold childObjType, HDF5Data_new, openDataSet. rewrite Hfind.
  destruct o as [links|class dims contents|]; [discriminate Hflat| |].
  - cbn [well_formed] in Hwf. cbn [lift Lbind visit mirror].
    destruct (getDataProperties class) as [[[mem size] nm]| |]; try discriminate.
    apply negb_true_iff in Hwf. rewrite Hwf. eexists. reflexivity.
  - eexists. reflexivity.
Qed.

Lemma for_each_flat (fuel : nat) (file_ links : Location) (node : gmap string Node) :
  (forall n c, In (n, c) links ->
     find_link file_ n = Some c /\ n <> ""%string
     /\ well_formed c = true /\ is_group c = false) ->
  exists t,
    for_each (map fst links) node (fun obj data_ => loadData (S fuel) data_ file_ obj)
    = Some (Returns (entered links node, t)).
Proof.
  revert node. induction links as [|[n c] l IH]; intros node Hall; [now exists []|].
  destruct (Hall n c (or_introl eq_refl)) as (Hfind & Hname & Hwf & Hflat).
  destruct (loadData_flat fuel node file_ n c Hfind Hname Hwf Hflat) as [t1 H1].
  destruct (IH (match mirror c with Some v => <[n := v]> node | None => node end))
    as [t2 H2].
  { intros n' c' Hin. apply Hall. now right. }
  exists (t1 ++ t2). cbn [map fst for_each]. rewrite H1. cbn [Lbind]. rewrite H2.
  reflexivity.
Qed.

(** X17.  A file that holds no group, only datasets (and named datatypes)
    under distinct names, is loaded into the tree that mirrors it: every
    dataset is a leaf under its own name, with its class, shape and
    contents, and nothing else is in the tree. *)
Theorem flat_file_is_mirrored (file_ : Location) :
  well_formed (H5Group file_) = true ->
  forallb (fun nc => negb (is_group (snd nc))) file_ = true ->
  exists data_ t,
    HDF5File file_ = Some (Returns (data_, t))
    /\ mirror (H5Group file_) = Some (Map data_).
Proof.
  intros Hwf Hflat. destruct (well_formed_group file_ Hwf) as [Hnd Hlinks].
  destruct (for_each_flat (Nat.pred (depth (H5Group file_))) file_ file_ ∅) as [t Hload].
  { intros n c Hin. destruct (Hlinks n c Hin) as [Hname Hc].
    rewrite forallb_forall in Hflat. specialize (Hflat (n, c) Hin).
    repeat split; auto; [now apply find_link_In|].
    now apply negb_true_iff in Hflat. }
  exists (entered file_ ∅), t. split; [exact Hload|]. now apply mirror_entered.
Qed.

Lemma dimensions_later (i : nat) (dims : list N) :
  dimensions (S i) dims
  = match dims with
    | [] => ""%string
    | _ => (" x " ++ String.concat " x " (map pretty dims))%string
    end.
Proof.
  revert i. induction dims as [|d dims IH]; intros i; [reflexivity|].
  cbn [dimensions]. rewrite IH. change (0 <? S i)%nat with true. cbv iota.
  destruct dims as [|e dims].
  - cbn [map String.concat]. now rewrite string_app_nil_r.
  - reflexivity.
Qed.

Lemma dimensions_first (dims : list N) :
  dimensions 0 dims = String.concat " x " (map pretty dims).
Proof.
  destruct dims as [|d dims]; [reflexivity|].
  cbn [dimensions]. rewrite dimensions_later. change (0 <? 0)%nat with false. cbv iota.
  destruct dims as [|e dims].
  - cbn [map String.concat]. now rewrite string_app_nil_r.
  - reflexivity.
Qed.

(** X18.  The status line of a dataset object whose rank is the length of
    its shape names the rank, then integer or double, then the dimensions
    with an x between every two of them and none before the first or after
    the last; for rank 0 no dimension is written. *)
Theorem getStatus_line (dims : list N) (buffer : PredType * Contents) :
  getStatus {| type_ := H5T_INTEGER; rank_ := length dims; dims_ := dims; data_ := buffer |}
  = Returns ("HDF5DataSet Rank: " ++ pretty (length dims) ++ ", Type: integer, Dimensions: "
             ++ String.concat " x " (map pretty dims))%string
  /\ getStatus {| type_ := H5T_FLOAT; rank_ := length dims; dims_ := dims; data_ := buffer |}
     = Returns ("HDF5DataSet Rank: " ++ pretty (length dims) ++ ", Type: double, Dimensions: "
                ++ String.concat " x " (map pretty dims))%string.
Proof.
  unfold getStatus. cbn [getDataProperties type_ rank_ dims_].
  rewrite firstn_all, dimensions_first. split; reflexivity.
Qed.

End Robowflex.

(** * Worked instances *)

(** ** A robot of named joint variables *)

Definition NamedRobot : Type := list (string * double).

Fixpoint set_positions (v : list double) (r : NamedRobot) : NamedRobot :=
  match r, v with
  | (n, _) :: r, x :: v => (n, x) :: set_positions v r
  | _, _ => r
  end.

Definition set_named (m : gmap string double) (r : NamedRobot) : NamedRobot :=
  map (fun nx => (fst nx, default (snd nx) (m !! fst nx))) r.

#[export] Instance NamedRobot_interface : RobotInterface NamedRobot :=
  {| getState := map snd; setState := set_positions; setStateNamed := set_named |}.

(** ** Two joints, a pipeline that always succeeds, a constraint helper that
    leaves the world alone and one that puts the robot at the start it is
    given *)

Definition demo_msg (positions : list double) : RobotStateMsg :=
  {| joint_state := {| name := []; position := positions |} |}.

Definition demo_Request : Type := @MotionPlanRequest unit unit unit.
Definition demo_Response : Type := @MotionPlanResponse (list (string * double)).
Definition demo_World : Type := @World unit unit unit NamedRobot unit unit nat.

Definition demo_generatePlan (p : unit) (sc : unit) (rq : demo_Request) (res : demo_Response)
    (e : nat) : demo_Response * nat :=
  ({| trajectory_ := Some [("j1"%string, 0.5%float)];
      planning_time_ := planning_time_ res;
      error_code_ := {| val := SUCCESS |} |}, S e).

Definition demo_getPlanningContext (sc : unit) (rq : demo_Request) (e : nat)
  : option unit * nat := (None, e).

Definition demo_Context_clear (c : unit) (e : nat) : unit * nat := (tt, e).

Definition demo_Context_solve (c : unit) (res : demo_Response) (e : nat)
  : (bool * demo_Response) * nat := ((true, res), S e).

Definition quiet_constraint_helper (goal_conf joint_positions : list double) (w : demo_World)
  : demo_World := w.

Definition moving_constraint_helper (goal_conf joint_positions : list double) (w : demo_World)
  : demo_World :=
  with_robot (setState joint_positions) w.

Definition demo_scene_graph_helper (goal_conf : list double) (w : demo_World) : demo_World := w.

Definition demo_getFinalJointPositions (res : demo_Response) : gmap string double :=
  match trajectory_ res with
  | Some waypoint => list_to_map waypoint
  | None => ∅
  end.

Definition demo_request : demo_Request :=
  {| group_name := "arm";
     workspace_parameters :=
       {| min_corner := {| x := (-1)%float; y := (-1)%float; z := (-1)%float |};
          max_corner := {| x := 1%float; y := 1%float; z := 1%float |} |};
     allowed_planning_time := 5%float;
     planner_id := "RRTConnect";
     start_state := demo_msg [0%float; 0.25%float];
     goal_constraints := [] |}.

Definition demo_world : demo_World :=
  {| robot := [("j1"%string, 0%float); ("j2"%string, 0.25%float)];
     request_ := demo_request;
     scene := tt;
     pipeline_ := Some tt;
     env := 0 |}.

Definition demo_world_no_pipeline : demo_World :=
  {| robot := robot demo_world; request_ := demo_request; scene := tt;
     pipeline_ := None; env := 0 |}.

Definition demo_plan_linearly (goals : list (list double)) :=
  plan_linearly (RobotState := list double) [] (fun s => s) (fun joints _ => joints) demo_msg
    demo_generatePlan quiet_constraint_helper demo_scene_graph_helper
    demo_getFinalJointPositions goals.

Definition demo_plan_linearly_body (goal_conf : list double) :=
  plan_linearly_body (RobotState := list double) [] (fun s => s) (fun joints _ => joints)
    demo_msg demo_generatePlan moving_constraint_helper demo_scene_graph_helper
    demo_getFinalJointPositions goal_conf.

(** A robot with the seven variables of a floating virtual joint before its
    two joints; the request's start state lists the two joints only. *)
Definition r2_world : demo_World :=
  {| robot := [("virtual_joint/trans_x"%string, 0%float);
               ("virtual_joint/trans_y"%string, 0%float);
               ("virtual_joint/trans_z"%string, 0%float);
               ("virtual_joint/rot_x"%string, 0%float);
               ("virtual_joint/rot_y"%string, 0%float);
               ("virtual_joint/rot_z"%string, 0%float);
               ("virtual_joint/rot_w"%string, 1%float);
               ("j1"%string, 0%float); ("j2"%string, 0.25%float)];
     request_ := demo_request;
     scene := tt;
     pipeline_ := Some tt;
     env := 0 |}.

(** [plan_linearly] with the constraint helper that moves the robot. *)
Definition moving_plan_linearly (goals : list (list double)) :=
  plan_linearly (RobotState := list double) [] (fun s => s) (fun joints _ => joints) demo_msg
    demo_generatePlan moving_constraint_helper demo_scene_graph_helper
    demo_getFinalJointPositions goals.

(** The start positions of the requests handed to the planner, by call. *)
Definition planner_starts (t : list (@Event unit unit unit (list (string * double))))
  : list (list double) :=
  omap (fun e => match e with
                 | planner_plan rq => Some (position (joint_state (start_state rq)))
                 | _ => None
                 end) t.

(** ** A file with two groups that both hold a dataset named x, and a file
    with nested groups *)

Definition h5_same_name : list (string * @H5Object unit) :=
  [("a"%string, H5Group [("x"%string, H5Dataset H5T_INTEGER [2%N] tt)]);
   ("b"%string, H5Group [("x"%string, H5Dataset H5T_FLOAT [3%N] tt)])].

Definition h5_nested : list (string * @H5Object unit) :=
  [("g"%string, H5Group [("m"%string, H5Dataset H5T_INTEGER [2%N; 5%N] tt);
                         ("h"%string, H5Group [("y"%string, H5Dataset H5T_FLOAT [4%N] tt)])]);
   ("t"%string, H5NamedDatatype);
   ("d"%string, H5Dataset H5T_FLOAT [] tt)].

Definition leaf (class : H5T_class_t) (mem : PredType) (dims : list N) : @Node unit :=
  Leaf {| type_ := class; rank_ := length dims; dims_ := dims; data_ := (mem, tt) |}.

(** ** A configuration file with three planner configurations, a planner
    that has not been initialized, and the builder's collaborators *)

Definition demo_loadFileToYAML (config_file : string) : bool * list string :=
  if String.eqb config_file "ompl_planning.yaml"
  then (true, ["SBLkConfigDefault"; "RRTConnectkConfigDefault"; "RRTkConfigDefault"]%string)
  else (false, []).

Definition demo_planner_configs (node : list string) : option (list string) := Some node.

Definition demo_settings : @Settings string :=
  {| max_goal_samples := "10"; max_goal_sampling_attempts := "1000";
     max_planning_threads := "4"; max_solution_segment_length := "0.0";
     max_state_sampling_attempts := "4"; minimum_waypoint_count := "10";
     simplify_solutions := "true"; use_constraints_approximations := "false";
     display_random_valid_states := "false"; link_for_exploration_tree := "";
     maximum_waypoint_distance := "0.0" |}.

Definition demo_planner : @PlannerMembers unit string (list string) :=
  {| handler_ := []; configs_ := []; planner_pipeline_ := None |}.

Definition demo_initialize (config_file : string) (adapters : list string)
    (this : @PlannerMembers unit string (list string)) :=
  OMPLPipelinePlanner_initialize (fun s => s) demo_loadFileToYAML demo_planner_configs
    (fun _ => tt) config_file demo_settings "ompl_interface/OMPLPlanner" adapters this.

Definition demo_builder_call (r : demo_Request) (c : @BuilderCall unit unit unit unit)
  : demo_Request :=
  builder_call (RobotState := list double) [] (fun s => s) (fun joints _ => joints) demo_msg
    (fun _ => {| joint_constraints := [tt]; position_constraints := [];
                 orientation_constraints := [] |})
    (fun _ _ _ _ => tt) (fun _ _ _ _ => tt) r c.

Definition demo_builder_calls (cs : list (@BuilderCall unit unit unit unit)) (r : demo_Request)
  : demo_Request :=
  builder_calls (RobotState := list double) [] (fun s => s) (fun joints _ => joints) demo_msg
    (fun _ => {| joint_constraints := [tt]; position_constraints := [];
                 orientation_constraints := [] |})
    (fun _ _ _ _ => tt) (fun _ _ _ _ => tt) cs r.

(** ** A file without groups, and the tree of the file with nested groups *)

Definition h5_flat : list (string * @H5Object unit) :=
  [("a"%string, H5Dataset H5T_INTEGER [2%N; 3%N] tt);
   ("t"%string, H5NamedDatatype);
   ("b"%string, H5Dataset H5T_FLOAT [4%N] tt)].

Definition h5_nested_tree : gmap string (@Node unit) :=
  match HDF5File 4 8 h5_nested with
  | Some (Returns (data_, _)) => data_
  | _ => ∅
  end.

(** ** A task planner that returns two goals *)



(** ** The instances, evaluated *)

Lemma set_positions_same (r r' : NamedRobot) :
  map fst r = map fst r' -> set_positions (map snd r') r = r'.
Proof.
  revert r'. induction r as [|[n a] r IH]; intros [|[n' a'] r'] Hnames;
    try discriminate; [reflexivity|].
  cbn in *. injection Hnames as -> Hnames. now rewrite IH.
Qed.

Lemma set_positions_names (v : list double) (r : NamedRobot) :
  map fst (set_positions v r) = map fst r.
Proof.
  revert v. induction r as [|[n a] r IH]; intros [|b v]; cbn; try reflexivity.
  now rewrite IH.
Qed.

#[export] Instance NamedRobot_laws : RobotLaws NamedRobot.
Proof.
  split.
  - intros v r. cbn. apply set_positions_same. apply set_positions_names.
  - intros m r. exists (map snd (set_named m r)). cbn. symmetry.
    apply set_positions_same. unfold set_named. rewrite map_map. cbn.
    reflexivity.
Qed.

(** C8, at four calls of the builder on a request that holds no goal. *)
Lemma goal_constraints_exactly_one_witness :
  let cs := [SetGoalConfiguration [1%float]; SetStartConfiguration [2%float];
             SetGoalRegion "hand" "base" tt tt tt tt;
             SetWorkspaceBounds (workspace_parameters demo_request)] in
  existsb is_goal_setter cs = true
  /\ length (goal_constraints (demo_builder_calls cs demo_request)) = 1
  /\ exists before c after goal,
       cs = before ++ c :: after
       /\ existsb is_goal_setter after = false
       /\ pushed_goal (RobotState := list double) []
            (fun joints _ => joints)
            (fun _ => {| joint_constraints := [tt]; position_constraints := [];
                         orientation_constraints := [] |})
            (fun _ _ _ _ => tt) (fun _ _ _ _ => tt) c = Some goal
       /\ goal_constraints (demo_builder_calls cs demo_request) = [goal].
Proof.
  cbv zeta. split; [reflexivity|].
  apply (goal_constraints_exactly_one (RobotState := list double)). reflexivity.
Defined.

(** C9, at a world without pipeline and an interface that has no context. *)
Lemma plan_without_backend_witness :
  result (PipelinePlanner_plan demo_generatePlan tt demo_request demo_world_no_pipeline)
    = default_response
  /\ val (error_code_
            (result (OMPLInterfacePlanner_plan demo_getPlanningContext demo_Context_clear
                       demo_Context_solve tt demo_request demo_world))) = FAILURE.
Proof.
  destruct (plan_without_backend demo_generatePlan demo_getPlanningContext demo_Context_clear
              demo_Context_solve tt demo_request demo_world_no_pipeline) as [Hpipeline _].
  destruct (plan_without_backend demo_generatePlan demo_getPlanningContext demo_Context_clear
              demo_Context_solve tt demo_request demo_world) as [_ Hompl].
  split; [apply Hpipeline; reflexivity | apply Hompl; reflexivity].
Defined.

(** C1, refuted as stated: in the run for two goals the start that the
    second planning call receives has two entries, the robot's two joints,
    and so is not the seven fixed values followed by anything. *)
Lemma second_start_has_no_prefix :
  exists start,
    nth_error (planner_starts (trace (demo_plan_linearly [[1%float]; [2%float]] demo_world))) 1
      = Some start
    /\ length start = 2
    /\ forall joints, start <> tmp ++ joints.
Proof.
  eexists. split; [vm_compute; reflexivity|]. split; [reflexivity|].
  intros joints E. apply (f_equal (@length double)) in E.
  rewrite length_app in E. cbn in E. lia.
Qed.

(** C3, at a planner without pipeline: both goals are planned, both
    responses (error code 0, no trajectory) are in the result. *)
Example failed_plans_are_kept :
  let run := demo_plan_linearly [[1%float]; [2%float]] demo_world_no_pipeline in
  result run = [default_response; default_response]
  /\ steps (trace run)
     = [ConstraintStep [1%float]; SceneGraphStep [1%float]; PlannerStep;
        ConstraintStep [2%float]; SceneGraphStep [2%float]; PlannerStep].
Proof. split; vm_compute; reflexivity. Qed.

(** C10, refuted as stated: the constraint helper receives the robot and
    may move it.  In the run of [plan_linearly] for one goal, with a helper
    that puts the robot at the start configuration it is given (the seven
    fixed values, then the request's start positions), the robot after the
    run is not the robot before it, although lines 85-89 restored what they
    had saved. *)
Lemma plan_linearly_moves_robot :
  robot (world (moving_plan_linearly [[1%float]] r2_world)) <> robot r2_world.
Proof.
  intros E.
  apply (f_equal (fun r : NamedRobot =>
                    match r with
                    | (_, v) :: _ => PrimFloat.ltb v 0.5
                    | [] => false
                    end)) in E.
  vm_compute in E. discriminate E.
Qed.

(** C10, at the first iteration of that run. *)
Lemma robot_restored_witness :
  let start := tmp ++ position (joint_state (start_state (request_ r2_world))) in
  robot (world (reseed (RobotState := list double) [] (fun s => s) (fun joints _ => joints)
                  demo_msg demo_getFinalJointPositions
                  (result (PipelinePlanner_plan demo_generatePlan tt demo_request r2_world))
                  r2_world))
    = robot r2_world
  /\ robot (world (demo_plan_linearly_body [1%float] ([], start) r2_world))
     = robot (helped moving_constraint_helper demo_scene_graph_helper
                [1%float] start r2_world).
Proof.
  exact (robot_restored_after_read_back (RobotState := list double) [] (fun s => s)
           (fun joints _ => joints) demo_msg demo_generatePlan moving_constraint_helper
           demo_scene_graph_helper demo_getFinalJointPositions (laws := NamedRobot_laws)
           [1%float] []
           (tmp ++ position (joint_state (start_state (request_ r2_world))))
           (result (PipelinePlanner_plan demo_generatePlan tt demo_request r2_world))
           r2_world).
Defined.

(** C2, the loader run on a file whose two groups both hold a dataset named
    x: the groups' names are not keys of the tree, the members of both
    groups land in the one top-level map, where the second x replaces the
    first, and each dataset sits in a map of its own name.  The tree has one
    leaf, the file two datasets. *)
Theorem same_name_in_two_groups :
  HDF5File 4 8 h5_same_name
    = Some (Returns
              (<["x"%string := Map (<["x"%string := leaf H5T_FLOAT NATIVE_DOUBLE [3%N]]> ∅)]> ∅,
               [("a"%string, H5O_TYPE_GROUP); ("x"%string, H5O_TYPE_DATASET);
                ("b"%string, H5O_TYPE_GROUP); ("x"%string, H5O_TYPE_DATASET)]))
  /\ mirror 4 8 (H5Group h5_same_name)
    = Some (Map (<["a"%string := Map (<["x"%string := leaf H5T_INTEGER NATIVE_INT [2%N]]> ∅)]>
                (<["b"%string := Map (<["x"%string := leaf H5T_FLOAT NATIVE_DOUBLE [3%N]]> ∅)]> ∅)))
  /\ leaf_shapes
       (Map (<["x"%string := Map (<["x"%string := leaf H5T_FLOAT NATIVE_DOUBLE [3%N]]> ∅)]> ∅))
     = [[3%N]]
  /\ dataset_shapes (H5Group h5_same_name) = [[2%N]; [3%N]]
  /\ well_formed 4 8 (H5Group h5_same_name) = true.
Proof.
  repeat split; vm_compute; reflexivity.
Qed.

(** C7, at a file with nested groups. *)
Lemma tree_built_once_witness :
  well_formed 4 8 (H5Group h5_nested) = true
  /\ HDF5File 4 8 h5_nested
     = Some (Returns (depth_first_tree 4 8 h5_nested, preorder (H5Group h5_nested)))
  /\ length (preorder (H5Group h5_nested)) = members (H5Group h5_nested)
  /\ forall qs,
       HDF5File_then 4 8 h5_nested qs
       = Some (Returns (depth_first_tree 4 8 h5_nested, preorder (H5Group h5_nested)))
       /\ queries 4 8 qs (depth_first_tree 4 8 h5_nested) = depth_first_tree 4 8 h5_nested
       /\ forall q, fst (query 4 8 q (queries 4 8 qs (depth_first_tree 4 8 h5_nested)))
                    = fst (query 4 8 q (depth_first_tree 4 8 h5_nested)).
Proof.
  split; [vm_compute; reflexivity|].
  apply (tree_built_once_depth_first 4 8 h5_nested). vm_compute. reflexivity.
Defined.

(** ** Instances of the further properties *)

(** X2, at a goal region, then a goal configuration, then a start. *)
Lemma last_goal_setter_decides_witness :
  goal_constraints
    (demo_builder_calls
       ([SetGoalRegion "hand" "base" tt tt tt tt]
        ++ SetGoalConfiguration [1%float] :: [SetStartConfiguration [2%float]])
       demo_request)
  = goal_constraints (demo_builder_call (MotionRequestBuilder_new [] "arm")
                        (SetGoalConfiguration [1%float])).
Proof.
  exact (last_goal_setter_decides (RobotState := list double) [] (fun s => s)
           (fun joints _ => joints) demo_msg
           (fun _ => {| joint_constraints := [tt]; position_constraints := [];
                        orientation_constraints := [] |})
           (fun _ _ _ _ => tt) (fun _ _ _ _ => tt)
           [SetGoalRegion "hand" "base" tt tt tt tt] [SetStartConfiguration [2%float]]
           (SetGoalConfiguration [1%float]) demo_request
           (MotionRequestBuilder_new [] "arm") eq_refl eq_refl).
Defined.

(** X4, at the empty file name. *)
Lemma initialize_refuses_witness :
  demo_initialize "" DEFAULT_ADAPTERS demo_planner = (false, demo_planner)
  /\ OMPLInterfacePlanner_initialize demo_loadFileToYAML demo_planner_configs
       "" demo_settings demo_planner = (false, demo_planner).
Proof.
  apply (initialize_refuses_without_config (fun s => s) demo_loadFileToYAML
           demo_planner_configs (fun _ => tt) "" demo_settings "ompl_interface/OMPLPlanner"
           DEFAULT_ADAPTERS demo_planner).
  left. reflexivity.
Defined.

(** X5, at the default adapters. *)
Lemma initialize_writes_adapters_witness :
  let after := snd (demo_initialize "ompl_planning.yaml" DEFAULT_ADAPTERS demo_planner) in
  fst (demo_initialize "ompl_planning.yaml" DEFAULT_ADAPTERS demo_planner) = true
  /\ handler_ after
     = handler_ demo_planner
       ++ [loadYAMLtoROS
             ["SBLkConfigDefault"; "RRTConnectkConfigDefault"; "RRTkConfigDefault"]%string;
           setParam "planning_plugin" "ompl_interface/OMPLPlanner"%string;
           setParam "request_adapters" (String.concat " " DEFAULT_ADAPTERS);
           setParam "ompl/max_goal_samples" (max_goal_samples demo_settings);
           setParam "ompl/max_goal_sampling_attempts" (max_goal_sampling_attempts demo_settings);
           setParam "ompl/max_planning_threads" (max_planning_threads demo_settings);
           setParam "ompl/max_solution_segment_length" (max_solution_segment_length demo_settings);
           setParam "ompl/max_state_sampling_attempts" (max_state_sampling_attempts demo_settings);
           setParam "ompl/minimum_waypoint_count" (minimum_waypoint_count demo_settings);
           setParam "ompl/simplify_solutions" (simplify_solutions demo_settings);
           setParam "ompl/use_constraints_approximations" (use_constraints_approximations demo_settings);
           setParam "ompl/display_random_valid_states" (display_random_valid_states demo_settings);
           setParam "ompl/link_for_exploration_tree" (link_for_exploration_tree demo_settings);
           setParam "ompl/maximum_waypoint_distance" (maximum_waypoint_distance demo_settings)]
  /\ planner_pipeline_ after = Some tt.
Proof.
  apply (initialize_writes_adapters_joined (fun s => s) demo_loadFileToYAML
           demo_planner_configs (fun _ => tt) "ompl_planning.yaml" demo_settings
           "ompl_interface/OMPLPlanner" DEFAULT_ADAPTERS demo_planner
           ["SBLkConfigDefault"; "RRTConnectkConfigDefault"; "RRTkConfigDefault"]%string).
  - discriminate.
  - reflexivity.
  - reflexivity.
Defined.

(** X6, at the same file. *)
Lemma initialize_appends_configs_witness :
  let keys := ["SBLkConfigDefault"; "RRTConnectkConfigDefault"; "RRTkConfigDefault"]%string in
  let once := snd (demo_initialize "ompl_planning.yaml" DEFAULT_ADAPTERS demo_planner) in
  let twice := snd (demo_initialize "ompl_planning.yaml" DEFAULT_ADAPTERS once) in
  getPlannerConfigs once = getPlannerConfigs demo_planner ++ keys
  /\ getPlannerConfigs twice = getPlannerConfigs demo_planner ++ keys ++ keys
  /\ getPlannerConfigs
       (snd (OMPLInterfacePlanner_initialize demo_loadFileToYAML
               demo_planner_configs "ompl_planning.yaml" demo_settings demo_planner))
     = getPlannerConfigs demo_planner ++ keys.
Proof.
  apply (initialize_appends_configs (fun s => s) demo_loadFileToYAML
           demo_planner_configs (fun _ => tt) "ompl_planning.yaml" demo_settings
           "ompl_interface/OMPLPlanner" DEFAULT_ADAPTERS demo_planner
           ["SBLkConfigDefault"; "RRTConnectkConfigDefault"; "RRTkConfigDefault"]%string).
  - discriminate.
  - reflexivity.
Defined.

(** X7, at the same file and the group arm. *)
Lemma builder_after_initialize_witness :
  occurs "RRTConnect"
    (planner_id
       (MotionRequestBuilder_new (JointConstraint := unit) (PositionConstraint := unit)
          (OrientationConstraint := unit)
          (getPlannerConfigs
             (snd (demo_initialize "ompl_planning.yaml" DEFAULT_ADAPTERS demo_planner)))
          "arm")).
Proof.
  apply (builder_after_initialize_asks_RRTConnect (fun s => s) demo_loadFileToYAML
           demo_planner_configs (fun _ => tt) "ompl_planning.yaml" demo_settings
           "ompl_interface/OMPLPlanner" DEFAULT_ADAPTERS demo_planner
           ["SBLkConfigDefault"; "RRTConnectkConfigDefault"; "RRTkConfigDefault"]%string
           ["SBLkConfigDefault"; "RRTConnectkConfigDefault"; "RRTkConfigDefault"]%string
           "RRTConnectkConfigDefault" "arm").
  - discriminate.
  - reflexivity.
  - reflexivity.
  - right. left. reflexivity.
  - exists ""%string, "kConfigDefault"%string. reflexivity.
Defined.

(** X10, at two goals and helpers that change nothing. *)
Lemma goals_reach_the_planner_witness :
  nth_error (planner_requests
               (trace (demo_plan_linearly ([1%float] :: [[2%float]]) demo_world))) 0
    = Some (request_ demo_world)
  /\ Forall (fun rq => with_start_state (start_state (request_ demo_world)) rq
                       = request_ demo_world)
       (planner_requests (trace (demo_plan_linearly ([1%float] :: [[2%float]]) demo_world))).
Proof.
  apply (goals_reach_the_planner_only_through_helpers (RobotState := list double) []
           (fun s => s) (fun joints _ => joints) demo_msg demo_generatePlan
           quiet_constraint_helper demo_scene_graph_helper demo_getFinalJointPositions
           [1%float] [[2%float]] demo_world).
  - intros g ns w. reflexivity.
  - intros g w. reflexivity.
Defined.

(** X11, at the two-joint robot and helpers that change nothing. *)
Lemma plan_linearly_leaves_robot_witness :
  robot (world (demo_plan_linearly [[1%float]; [2%float]] demo_world)) = robot demo_world.
Proof.
  apply (plan_linearly_leaves_robot (RobotState := list double) [] (fun s => s)
           (fun joints _ => joints) demo_msg demo_generatePlan quiet_constraint_helper
           demo_scene_graph_helper demo_getFinalJointPositions (laws := NamedRobot_laws)
           [[1%float]; [2%float]] demo_world).
  - intros g ns w. reflexivity.
  - intros g w. reflexivity.
Defined.

(** X15, at the dataset m of the file with nested groups. *)
Lemma leaves_are_datasets_witness :
  let d := {| type_ := H5T_INTEGER; rank_ := 2; dims_ := [2%N; 5%N];
              data_ := (NATIVE_INT, tt) |} in
  stands_for (datasets_of (H5Group h5_nested)) d
  /\ getDims d = dims_ d
  /\ exists status, getStatus 4 8 d = Returns status.
Proof.
  apply (leaves_are_datasets_of_the_file 4 8 h5_nested h5_nested_tree
           (preorder (H5Group h5_nested)) ["m"; "m"]%string).
  - vm_compute. reflexivity.
  - vm_compute. reflexivity.
Defined.

(** X16, at the file with nested groups. *)
Lemma HDF5File_returns_iff_witness :
  (exists data_ t, HDF5File 4 8 h5_nested = Some (Returns (data_, t)))
  <-> datasets_loadable 4 8 (H5Group h5_nested) = true.
Proof.
  apply (HDF5File_returns_iff 4 8 h5_nested). vm_compute. reflexivity.
Defined.

(** X17, at a file of two datasets and a named datatype. *)
Lemma flat_file_is_mirrored_witness :
  exists data_ t,
    HDF5File 4 8 h5_flat = Some (Returns (data_, t))
    /\ mirror 4 8 (H5Group h5_flat) = Some (Map data_).
Proof.
  apply (flat_file_is_mirrored 4 8 h5_flat); vm_compute; reflexivity.
Defined.

